(** * ActiveCampaign MCP server: a shallow embedding of [main.py]

    The server is a facade over two remote services: the Nango credential
    broker and the ActiveCampaign REST API.  Every tool is a short Python
    function that resolves credentials, issues one HTTP call through the
    [requests] library and wraps the decoded JSON into a pydantic model.

    The embedding keeps that shape.  Decoded JSON and Python dictionaries are
    values of [json]; a function of the program that may raise and may call
    [requests] is a computation in the monad [M], which threads the log of the
    HTTP calls made so far and carries either a returned value or the raised
    exception; the two remote services are the oracles of a [World]. *)

From Stdlib Require Import String Ascii List ZArith Bool Lia DecimalString.
Import ListNotations.
Open Scope list_scope.
Open Scope string_scope.
Open Scope Z_scope.

Set Implicit Arguments.
Set Warnings "-register-all".

(** ** Python values *)

(** What [response.json()] yields and what the tools build with dictionary
    literals.  A dictionary is an association list in insertion order, the
    order in which [json=data] serialises it.  Numbers are the integers;
    JSON fractions are outside the model. *)
Inductive json : Type :=
| JNull
| JBool (b : bool)
| JNum (z : Z)
| JStr (s : string)
| JArr (l : list json)
| JObj (d : list (string * json)).

(** Truth value of an object, as tested by [if not x] and [bool(x)]. *)
Definition truthy (v : json) : bool :=
  match v with
  | JNull => false
  | JBool b => b
  | JNum z => negb (z =? 0)
  | JStr s => negb (s =? "")%string
  | JArr l => match l with [] => false | _ => true end
  | JObj d => match d with [] => false | _ => true end
  end.

(** [type(x).__name__] *)
Definition type_name (v : json) : string :=
  match v with
  | JNull => "NoneType"
  | JBool _ => "bool"
  | JNum _ => "int"
  | JStr _ => "str"
  | JArr _ => "list"
  | JObj _ => "dict"
  end.

(** [k in d] and [d[k]] on the items of a dictionary. *)
Fixpoint dict_get (d : list (string * json)) (k : string) : option json :=
  match d with
  | [] => None
  | (k', v) :: d' => if (k' =? k)%string then Some v else dict_get d' k
  end.

Definition dict_has (d : list (string * json)) (k : string) : bool :=
  match dict_get d k with Some _ => true | None => false end.

(** [d[k] = v]: an existing key keeps its place, a new key goes last. *)
Fixpoint dict_set (d : list (string * json)) (k : string) (v : json)
  : list (string * json) :=
  match d with
  | [] => [(k, v)]
  | (k', v') :: d' =>
      if (k' =? k)%string then (k', v) :: d' else (k', v') :: dict_set d' k v
  end.

(** ** Strings *)

Definition string_of_Z (z : Z) : string := NilZero.string_of_int (Z.to_int z).

Fixpoint join (sep : string) (l : list string) : string :=
  match l with
  | [] => ""
  | [s] => s
  | s :: l' => s ++ sep ++ join sep l'
  end.

(** [str.upper()] of a string of ASCII characters.  Python also maps some
    characters outside ASCII onto ASCII letters (the long s onto [S]); the
    statements about verbs are made for ASCII strings, where this function is
    exact. *)
Definition upper_char (c : ascii) : ascii :=
  let n := nat_of_ascii c in
  if (97 <=? n)%nat && (n <=? 122)%nat then ascii_of_nat (n - 32) else c.

Fixpoint upper (s : string) : string :=
  match s with
  | EmptyString => EmptyString
  | String c s' => String (upper_char c) (upper s')
  end.

(** [s.rstrip('/')] *)
Fixpoint rstrip_slash (s : string) : string :=
  match s with
  | EmptyString => EmptyString
  | String c s' =>
      let r := rstrip_slash s' in
      if (c =? "/")%char && (r =? "")%string then EmptyString else String c r
  end.

(** [needle in hay] on strings. *)
Fixpoint contains (needle hay : string) : bool :=
  prefix needle hay ||
  match hay with
  | EmptyString => false
  | String _ hay' => contains needle hay'
  end.

Fixpoint has_char (c : ascii) (s : string) : bool :=
  match s with
  | EmptyString => false
  | String c' s' => (c' =? c)%char || has_char c s'
  end.

Definition hex_digit (n : nat) : ascii :=
  if (n <? 10)%nat then ascii_of_nat (48 + n) else ascii_of_nat (87 + n).

(** [repr] of a string: single quotes unless the string holds a single quote
    and no double quote; the quote, the backslash and the control characters
    are escaped.  Bytes above 127 stand for themselves. *)
Definition repr_char (q : ascii) (c : ascii) : string :=
  let n := nat_of_ascii c in
  if (c =? q)%char then String "\" (String c "")
  else if (n =? 92)%nat then "\\"
  else if (n =? 9)%nat then "\t"
  else if (n =? 10)%nat then "\n"
  else if (n =? 13)%nat then "\r"
  else if (n <? 32)%nat || (n =? 127)%nat then
    String "\" (String "x" (String (hex_digit (n / 16))
                               (String (hex_digit (n mod 16)) "")))
  else String c "".

Fixpoint repr_chars (q : ascii) (s : string) : string :=
  match s with
  | EmptyString => EmptyString
  | String c s' => repr_char q c ++ repr_chars q s'
  end.

(** The double quote, character 34. *)
Definition dquote : ascii :=
  Ascii false true false false false true false false.

Definition repr_str (s : string) : string :=
  let q := if has_char "'" s && negb (has_char dquote s) then dquote
           else "'"%char in
  String q (repr_chars q s ++ String q "").

Fixpoint py_repr (v : json) : string :=
  match v with
  | JNull => "None"
  | JBool true => "True"
  | JBool false => "False"
  | JNum z => string_of_Z z
  | JStr s => repr_str s
  | JArr l => "[" ++ join ", " (map py_repr l) ++ "]"
  | JObj d =>
      "{" ++ join ", "
               (map (fun kv => match kv with
                               | (k, x) => repr_str k ++ ": " ++ py_repr x
                               end) d) ++ "}"
  end.

(** [str(x)], which is also what an f-string field [{x}] renders. *)
Definition py_str (v : json) : string :=
  match v with
  | JStr s => s
  | _ => py_repr v
  end.

(** An f-string field holding the result of [os.environ.get]. *)
Definition fmt_env (o : option string) : string :=
  match o with
  | Some s => s
  | None => "None"
  end.

(** ** Exceptions *)

(** The subclasses of [Exception] that the program raises, catches by name or
    receives from its libraries.  [RequestException] carries
    [e.response.status_code] when a response is attached to it.  The messages
    of the errors raised by the interpreter are those of CPython 3.12. *)
Inductive exn : Type :=
| ValueError (msg : string)
| TypeError (msg : string)
| AttributeError (msg : string)
| KeyError (msg : string)
| ValidationError (msg : string)
| RequestException (msg : string) (response : option Z)
| OtherException (msg : string).

(** [str(e)] *)
Definition exn_str (e : exn) : string :=
  match e with
  | ValueError m | TypeError m | AttributeError m | KeyError m
  | ValidationError m
  | RequestException m _ | OtherException m => m
  end.

Inductive result (A : Type) : Type :=
| Return (a : A)
| Raise (e : exn).
Arguments Raise {A} e.

(** ** The two remote services *)

Record request : Type := mkRequest {
  verb : string;
  url : string;
  headers : list (string * json);
  params : list (string * string);
  json_body : option json;
  timeout : option Z
}.

(** One entry per call of [requests.get], [.post], [.put] or [.delete],
    tagged with the service the call site addresses. *)
Inductive event : Type :=
| BrokerCall (r : request)
| ApiCall (r : request).

Definition trace := list event.

(** What [requests] hands back.  [body] is the outcome of [response.json()]:
    the decoded value, or the message of the decoding error. *)
Record response : Type := mkResponse {
  status_code : Z;
  reason : string;
  resp_url : string;
  body : string + json
}.

Inductive outcome : Type :=
| Raises (e : exn)
| Responds (r : response).

(** The environment of one run: the process environment and the behaviour of
    the two services, each free to depend on everything sent before. *)
Record World : Type := mkWorld {
  environ : string -> option string;
  nango : trace -> request -> outcome;
  activecampaign : trace -> request -> outcome
}.

(** ** Computations *)

Definition M (A : Type) : Type := trace -> result A * trace.

Definition ret {A} (a : A) : M A := fun t => (Return a, t).

Definition raise {A} (e : exn) : M A := fun t => (Raise e, t).

Definition bind {A B} (m : M A) (k : A -> M B) : M B :=
  fun t =>
    match m t with
    | (Return a, t') => k a t'
    | (Raise e, t') => (Raise e, t')
    end.

Definition lift {A} (r : result A) : M A := fun t => (r, t).

(** [try: m except ...: h e]; [h e = None] when no clause matches [e], which
    is then raised again. *)
Definition try_except {A} (m : M A) (h : exn -> option (M A)) : M A :=
  fun t =>
    match m t with
    | (Return a, t') => (Return a, t')
    | (Raise e, t') =>
        match h e with
        | Some k => k t'
        | None => (Raise e, t')
        end
    end.

Notation "x <- m ;; k" := (bind m (fun x => k))
  (at level 61, m at next level, right associativity).
Notation "' pat <- m ;; k" := (bind m (fun x => match x with pat => k end))
  (at level 61, pat pattern, m at next level, right associativity).

(** ** Operations on objects that may raise *)

(** [v.get(k, default)] *)
Definition py_get (v : json) (k : string) (default : json) : result json :=
  match v with
  | JObj d => match dict_get d k with
              | Some x => Return x
              | None => Return default
              end
  | _ => Raise (AttributeError
                  ("'" ++ type_name v ++ "' object has no attribute 'get'"))
  end.

Definition is_str (v : json) (s : string) : bool :=
  match v with
  | JStr s' => (s' =? s)%string
  | _ => false
  end.

(** [k in v] for a string [k] *)
Definition py_in (k : string) (v : json) : result bool :=
  match v with
  | JObj d => Return (dict_has d k)
  | JArr l => Return (existsb (fun x => is_str x k) l)
  | JStr s => Return (contains k s)
  | _ => Raise (TypeError
                  ("argument of type '" ++ type_name v ++ "' is not iterable"))
  end.

(** [v[k]] for a string [k] *)
Definition py_getitem (v : json) (k : string) : result json :=
  match v with
  | JObj d => match dict_get d k with
              | Some x => Return x
              | None => Raise (KeyError (repr_str k))
              end
  | JArr _ =>
      Raise (TypeError "list indices must be integers or slices, not str")
  | JStr _ => Raise (TypeError "string indices must be integers, not 'str'")
  | _ => Raise (TypeError
                  ("'" ++ type_name v ++ "' object is not subscriptable"))
  end.

(** ** The [requests] library *)

Definition oracle (w : World) (broker : bool) : trace -> request -> outcome :=
  if broker then nango w else activecampaign w.

Definition tag (broker : bool) (r : request) : event :=
  if broker then BrokerCall r else ApiCall r.

(** One call of [requests.<verb>]: logged, then answered by the service. *)
Definition send (w : World) (broker : bool) (r : request) : M response :=
  fun t =>
    match oracle w broker t r with
    | Raises e => (Raise e, (t ++ [tag broker r])%list)
    | Responds resp => (Return resp, (t ++ [tag broker r])%list)
    end.

Definition http_error_msg (kind : string) (r : response) : string :=
  string_of_Z (status_code r) ++ " " ++ kind ++ " Error: " ++ reason r
  ++ " for url: " ++ resp_url r.

(** [response.raise_for_status()] *)
Definition raise_for_status (r : response) : result unit :=
  let s := status_code r in
  if (400 <=? s) && (s <? 500) then
    Raise (RequestException (http_error_msg "Client" r) (Some s))
  else if (500 <=? s) && (s <? 600) then
    Raise (RequestException (http_error_msg "Server" r) (Some s))
  else Return tt.

(** [response.json()] *)
Definition response_json (r : response) : result json :=
  match body r with
  | inr v => Return v
  | inl msg => Raise (RequestException msg None)
  end.

(** ** Structured output models *)

(** The annotation of a model field.  Every field of the program is declared
    [Optional[...] = None]; the annotation below is what stands inside
    [Optional].  [TModel fs] is a nested [BaseModel] with the fields [fs]. *)
Inductive ftype : Type :=
| TStr
| TInt
| TDictAny
| TModel (fs : list (string * ftype))
| TListOf (t : ftype).

Record model : Type := mkModel {
  model_name : string;
  model_fields : list (string * ftype)
}.

Definition TClass (m : model) : ftype := TModel (model_fields m).

Fixpoint all_some {A} (l : list (option A)) : option (list A) :=
  match l with
  | [] => Some []
  | Some a :: l' => option_map (cons a) (all_some l')
  | None :: _ => None
  end.

(** Validation of one value against an annotation, as pydantic does it for
    these annotations on decoded JSON: a string for [str], an integer for
    [int] (conversions between the two are not modelled), an object for
    [Dict[str, Any]] and for a nested model, an array for [List[...]].  In a
    model, a key that is absent or [None] leaves the field at [None], and
    keys that are not fields are ignored.  A validated model is represented
    by the dictionary of its fields, in declaration order. *)
Fixpoint validate (t : ftype) (v : json) {struct t} : option json :=
  match t with
  | TStr => match v with JStr _ => Some v | _ => None end
  | TInt => match v with JNum _ => Some v | _ => None end
  | TDictAny => match v with JObj _ => Some v | _ => None end
  | TModel fs =>
      match v with
      | JObj d =>
          option_map JObj
            ((fix fields (fs : list (string * ftype))
                : option (list (string * json)) :=
                match fs with
                | [] => Some []
                | (k, ft) :: fs' =>
                    match match dict_get d k with
                          | None | Some JNull => Some JNull
                          | Some x => validate ft x
                          end, fields fs' with
                    | Some x, Some r => Some ((k, x) :: r)
                    | _, _ => None
                    end
                end) fs)
      | _ => None
      end
  | TListOf t' =>
      match v with
      | JArr l => option_map JArr (all_some (map (validate t') l))
      | _ => None
      end
  end.

(** A model class called on the unpacked dictionary [raw].  The message of
    the [TypeError] lacks the module prefix that Python puts before the name
    of the class, and the message of the [ValidationError] stands for the
    report of pydantic. *)
Definition construct (m : model) (raw : json) : result json :=
  match raw with
  | JObj _ =>
      match validate (TClass m) raw with
      | Some v => Return v
      | None => Raise (ValidationError
                         ("validation error for " ++ model_name m))
      end
  | _ => Raise (TypeError
                  (model_name m ++ "() argument after ** must be a mapping, not "
                   ++ type_name raw))
  end.

Definition ContactData : model :=
  mkModel "ContactData"
    [("cdate", TStr); ("email", TStr); ("phone", TStr); ("firstName", TStr);
     ("lastName", TStr); ("orgid", TStr); ("id", TStr)].

Definition ContactListData : model :=
  mkModel "ContactListData"
    [("contact", TStr); ("list", TStr); ("status", TInt); ("id", TStr)].

Definition ContactResponse : model :=
  mkModel "ContactResponse"
    [("contacts", TListOf (TClass ContactData));
     ("contactList", TClass ContactListData); ("error", TStr)].

Definition CampaignData : model :=
  mkModel "CampaignData"
    [("type", TStr); ("name", TStr); ("status", TStr); ("cdate", TStr);
     ("mdate", TStr); ("id", TStr)].

Definition CampaignResponse : model :=
  mkModel "CampaignResponse"
    [("campaign", TClass CampaignData);
     ("campaigns", TListOf (TClass CampaignData)); ("meta", TDictAny);
     ("error", TStr)].

Definition ListData : model :=
  mkModel "ListData"
    [("name", TStr); ("stringid", TStr); ("cdate", TStr); ("id", TStr)].

Definition ListResponse : model :=
  mkModel "ListResponse"
    [("list", TClass ListData); ("lists", TListOf (TClass ListData));
     ("error", TStr)].

Definition DealData : model :=
  mkModel "DealData"
    [("title", TStr); ("value", TStr); ("currency", TStr); ("status", TStr);
     ("id", TStr)].

Definition DealResponse : model :=
  mkModel "DealResponse"
    [("deal", TClass DealData); ("deals", TListOf (TClass DealData));
     ("error", TStr)].

Definition AccountData : model :=
  mkModel "AccountData" [("name", TStr); ("accountUrl", TStr); ("id", TStr)].

Definition NoteData : model :=
  mkModel "NoteData" [("note", TStr); ("cdate", TStr); ("id", TStr)].

Definition AccountResponse : model :=
  mkModel "AccountResponse"
    [("accounts", TListOf (TClass AccountData)); ("note", TClass NoteData);
     ("error", TStr)].

Definition TagData : model :=
  mkModel "TagData"
    [("tag", TStr); ("tagType", TStr); ("description", TStr); ("id", TStr)].

Definition TagResponse : model :=
  mkModel "TagResponse"
    [("tag", TClass TagData); ("tags", TListOf (TClass TagData));
     ("error", TStr)].

Definition MessageData : model :=
  mkModel "MessageData"
    [("name", TStr); ("subject", TStr); ("fromname", TStr);
     ("fromemail", TStr); ("id", TStr)].

Definition MessageResponse : model :=
  mkModel "MessageResponse"
    [("message", TClass MessageData);
     ("messages", TListOf (TClass MessageData)); ("error", TStr)].

Definition UserData : model :=
  mkModel "UserData"
    [("username", TStr); ("email", TStr); ("firstName", TStr);
     ("lastName", TStr); ("id", TStr)].

Definition UserResponse : model :=
  mkModel "UserResponse"
    [("user", TClass UserData); ("users", TListOf (TClass UserData));
     ("error", TStr)].

Definition PipelineData : model :=
  mkModel "PipelineData" [("title", TStr); ("currency", TStr); ("id", TStr)].

Definition PipelineResponse : model :=
  mkModel "PipelineResponse"
    [("pipeline", TClass PipelineData);
     ("pipelines", TListOf (TClass PipelineData)); ("error", TStr)].

Definition FieldValueData : model :=
  mkModel "FieldValueData"
    [("contact", TStr); ("field", TStr); ("value", TStr); ("id", TStr)].

Definition FieldValueResponse : model :=
  mkModel "FieldValueResponse"
    [("fieldValue", TClass FieldValueData);
     ("fieldValues", TListOf (TClass FieldValueData)); ("error", TStr)].

Definition AutomationData : model :=
  mkModel "AutomationData"
    [("name", TStr); ("status", TStr); ("entered", TStr); ("id", TStr)].

Definition AutomationResponse : model :=
  mkModel "AutomationResponse"
    [("automation", TClass AutomationData);
     ("automations", TListOf (TClass AutomationData)); ("error", TStr)].

(** ** The program *)

(** [all([...])] over values read from the environment. *)
Definition env_truthy (o : option string) : bool :=
  match o with
  | Some s => negb (s =? "")%string
  | None => false
  end.

(** [d[k1][k2] = v] on nested dictionaries. *)
Definition py_setitem2 (d : json) (k1 k2 : string) (v : json) : result json :=
  match d with
  | JObj items =>
      match dict_get items k1 with
      | Some (JObj inner) => Return (JObj (dict_set items k1
                                             (JObj (dict_set inner k2 v))))
      | Some x =>
          Raise (TypeError ("'" ++ type_name x
                            ++ "' object does not support item assignment"))
      | None => Raise (KeyError (repr_str k1))
      end
  | _ => Raise (TypeError ("'" ++ type_name d
                           ++ "' object is not subscriptable"))
  end.

Definition status_code_of (e : exn) : json :=
  match e with
  | RequestException _ (Some s) => JNum s
  | _ => JNull
  end.

Section Program.

Variable w : World.

Definition get_connection_credentials : M json :=
  let id := environ w "NANGO_CONNECTION_ID" in
  let integration_id := environ w "NANGO_INTEGRATION_ID" in
  let base_url := environ w "NANGO_BASE_URL" in
  let secret_key := environ w "NANGO_SECRET_KEY" in
  if negb (forallb env_truthy [id; integration_id; base_url; secret_key]) then
    raise (ValueError "Missing required Nango environment variables")
  else
    let url := fmt_env base_url ++ "/connection/" ++ fmt_env id in
    let params := [("provider_config_key", fmt_env integration_id);
                   ("refresh_token", "true")] in
    let headers := [("Authorization", JStr ("Bearer " ++ fmt_env secret_key))] in
    response <- send w true (mkRequest "GET" url headers params None None);;
    _ <- lift (raise_for_status response);;
    lift (response_json response).

Definition get_activecampaign_config : M (string * json) :=
  try_except
    (credentials <- get_connection_credentials;;
     c <- lift (py_get credentials "credentials" (JObj []));;
     api_key <- lift (py_get c "apiKey" JNull);;
     if negb (truthy api_key) then
       raise (ValueError "API key not found in Nango credentials")
     else
       cc <- lift (py_get credentials "connection_config" (JObj []));;
       hostname <- lift (py_get cc "hostname" JNull);;
       if negb (truthy hostname) then
         raise (ValueError "Hostname not found in Nango connection config")
       else
         let api_url := "https://" ++ py_str hostname in
         ret (api_url, api_key))
    (fun e =>
       Some (raise (ValueError
                      ("Failed to get ActiveCampaign config from Nango: "
                       ++ exn_str e)))).

Definition get_headers : M (list (string * json)) :=
  '(_, api_key) <- get_activecampaign_config;;
  ret [("Api-Token", api_key);
       ("Content-Type", JStr "application/json");
       ("Accept", JStr "application/json")].

Definition make_request (method endpoint : string) (data : option json)
  : M json :=
  '(api_url, _) <- get_activecampaign_config;;
  let url := rstrip_slash api_url ++ endpoint in
  headers <- get_headers;;
  try_except
    (response <-
       (if (upper method =? "GET")%string then
          send w false (mkRequest "GET" url headers [] None (Some 30))
        else if (upper method =? "POST")%string then
          send w false (mkRequest "POST" url headers [] data (Some 30))
        else if (upper method =? "PUT")%string then
          send w false (mkRequest "PUT" url headers [] data (Some 30))
        else if (upper method =? "DELETE")%string then
          send w false (mkRequest "DELETE" url headers [] None (Some 30))
        else raise (ValueError ("Unsupported HTTP method: " ++ method)));;
     _ <- lift (raise_for_status response);;
     lift (response_json response))
    (fun e =>
       match e with
       | RequestException _ _ =>
           Some (ret (JObj [("error", JStr (exn_str e));
                            ("status_code", status_code_of e)]))
       | _ => None
       end).

(** *** Contact tools *)

(** [status] is the parameter declared [status: int = 1]. *)
Definition update_list_status_for_contact
  (contact_id list_id : string) (status : Z) : M json :=
  let endpoint := "/api/3/contacts/" ++ contact_id ++ "/contactLists" in
  let data := JObj [("contactList",
                     JObj [("list", JStr list_id);
                           ("contact", JStr contact_id);
                           ("status", JNum status)])] in
  result <- make_request "POST" endpoint (Some data);;
  lift (construct ContactResponse result).

Definition get_custom_field_contact (field_id : string) : M json :=
  let endpoint := "/api/3/fields/" ++ field_id in
  result <- make_request "GET" endpoint None;;
  lift (construct FieldValueResponse result).

(** *** List tools *)

Definition list_custom_field_values (field_id : string) : M json :=
  let endpoint := "/api/3/fieldValues" in
  result <- make_request "GET" endpoint None;;
  lift (construct FieldValueResponse result).

Definition get_list (list_id : string) : M json :=
  let endpoint := "/api/3/lists/" ++ list_id in
  result <- make_request "GET" endpoint None;;
  lift (construct ListResponse result).

Definition list_campaigns : M json :=
  let endpoint := "/api/3/campaigns" in
  result <- make_request "GET" endpoint None;;
  lift (construct CampaignResponse result).

Definition list_automations : M json :=
  let endpoint := "/api/3/automations" in
  result <- make_request "GET" endpoint None;;
  lift (construct AutomationResponse result).

Definition list_users : M json :=
  let endpoint := "/api/3/users" in
  result <- make_request "GET" endpoint None;;
  lift (construct UserResponse result).

Definition list_pipelines : M json :=
  let endpoint := "/api/3/dealGroups" in
  result <- make_request "GET" endpoint None;;
  lift (construct PipelineResponse result).

Definition list_messages : M json :=
  let endpoint := "/api/3/messages" in
  result <- make_request "GET" endpoint None;;
  lift (construct MessageResponse result).

(** *** Deal tools *)

Definition get_deal (deal_id : string) : M json :=
  let endpoint := "/api/3/deals/" ++ deal_id in
  result <- make_request "GET" endpoint None;;
  lift (construct DealResponse result).

Definition list_deals : M json :=
  let endpoint := "/api/3/deals" in
  result <- make_request "GET" endpoint None;;
  lift (construct DealResponse result).

(** *** Account tools *)

Definition create_an_account_note (account_id note_text : string) : M json :=
  let endpoint := "/api/3/notes" in
  let data := JObj [("note",
                     JObj [("note", JStr note_text);
                           ("relid", JStr account_id);
                           ("reltype", JStr "account")])] in
  result <- make_request "POST" endpoint (Some data);;
  lift (construct AccountResponse result).

(** *** Tag tools *)

Definition get_tag (tag_id : string) : M json :=
  let endpoint := "/api/3/tags/" ++ tag_id in
  result <- make_request "GET" endpoint None;;
  lift (construct TagResponse result).

(** *** Campaign tools *)

Definition get_campaign (campaign_id : string) : M json :=
  let endpoint := "/api/3/campaigns/" ++ campaign_id in
  result <- make_request "GET" endpoint None;;
  lift (construct CampaignResponse result).

Definition get_pipeline (pipeline_id : string) : M json :=
  let endpoint := "/api/3/dealGroups/" ++ pipeline_id in
  result <- make_request "GET" endpoint None;;
  lift (construct PipelineResponse result).

(** [if value is not None: data["message"][key] = value] *)
Definition set_if_supplied (data : json) (key : string) (value : option string)
  : result json :=
  match value with
  | Some s => py_setitem2 data "message" key (JStr s)
  | None => Return data
  end.

Definition update_message (message_id : string)
  (name subject fromname fromemail : option string) : M json :=
  let endpoint := "/api/3/messages/" ++ message_id in
  let data := JObj [("message", JObj [])] in
  data <- lift (set_if_supplied data "name" name);;
  data <- lift (set_if_supplied data "subject" subject);;
  data <- lift (set_if_supplied data "fromname" fromname);;
  data <- lift (set_if_supplied data "fromemail" fromemail);;
  result <- make_request "PUT" endpoint (Some data);;
  lift (construct MessageResponse result).

Definition get_message (message_id : string) : M json :=
  let endpoint := "/api/3/messages/" ++ message_id in
  result <- make_request "GET" endpoint None;;
  lift (construct MessageResponse result).

(** *** Health check tool *)

Definition health_check : M json :=
  try_except
    (credentials <- get_connection_credentials;;
     result <- make_request "GET" "/api/3/users" None;;
     failed <- lift (py_in "error" result);;
     if failed : bool then
       message <- lift (py_getitem result "error");;
       ret (JObj [("status", JStr "error"); ("message", message)])
     else
       connection_id <- lift (py_get credentials "connection_id" JNull);;
       cc <- lift (py_get credentials "connection_config" (JObj []));;
       hostname <- lift (py_get cc "hostname" JNull);;
       provider <- lift (py_get credentials "provider" JNull);;
       ret (JObj [("status", JStr "ok");
                  ("message", JStr "API connection successful via Nango");
                  ("connection_id", connection_id);
                  ("hostname", hostname);
                  ("provider", provider)]))
    (fun e =>
       Some (ret (JObj [("status", JStr "error");
                        ("message", JStr (exn_str e))]))).

Definition get_nango_connection_info : M json :=
  try_except
    (credentials <- get_connection_credentials;;
     connection_id <- lift (py_get credentials "connection_id" JNull);;
     provider <- lift (py_get credentials "provider" JNull);;
     provider_config_key <-
       lift (py_get credentials "provider_config_key" JNull);;
     cc <- lift (py_get credentials "connection_config" (JObj []));;
     hostname <- lift (py_get cc "hostname" JNull);;
     created_at <- lift (py_get credentials "created_at" JNull);;
     last_fetched_at <- lift (py_get credentials "last_fetched_at" JNull);;
     end_user <- lift (py_get credentials "end_user" (JObj []));;
     c <- lift (py_get credentials "credentials" (JObj []));;
     api_key <- lift (py_get c "apiKey" JNull);;
     c' <- lift (py_get credentials "credentials" (JObj []));;
     credential_type <- lift (py_get c' "type" JNull);;
     ret (JObj [("status", JStr "success");
                ("connection_id", connection_id);
                ("provider", provider);
                ("provider_config_key", provider_config_key);
                ("hostname", hostname);
                ("created_at", created_at);
                ("last_fetched_at", last_fetched_at);
                ("end_user", end_user);
                ("has_api_key", JBool (truthy api_key));
                ("credential_type", credential_type)]))
    (fun e =>
       Some (ret (JObj [("status", JStr "error");
                        ("message", JStr (exn_str e))]))).

End Program.

(** ** The tool registry *)

(** One constructor per function decorated with [@mcp.tool()], carrying the
    arguments of the invocation. *)
Inductive tool_call : Type :=
| Call_update_list_status_for_contact (contact_id list_id : string) (status : Z)
| Call_get_custom_field_contact (field_id : string)
| Call_list_custom_field_values (field_id : string)
| Call_get_list (list_id : string)
| Call_list_campaigns
| Call_list_automations
| Call_list_users
| Call_list_pipelines
| Call_list_messages
| Call_get_deal (deal_id : string)
| Call_list_deals
| Call_create_an_account_note (account_id note_text : string)
| Call_get_tag (tag_id : string)
| Call_get_campaign (campaign_id : string)
| Call_get_pipeline (pipeline_id : string)
| Call_update_message (message_id : string)
    (name subject fromname fromemail : option string)
| Call_get_message (message_id : string)
| Call_health_check
| Call_get_nango_connection_info.

Definition invoke (w : World) (c : tool_call) : M json :=
  match c with
  | Call_update_list_status_for_contact contact_id list_id status =>
      update_list_status_for_contact w contact_id list_id status
  | Call_get_custom_field_contact field_id => get_custom_field_contact w field_id
  | Call_list_custom_field_values field_id => list_custom_field_values w field_id
  | Call_get_list list_id => get_list w list_id
  | Call_list_campaigns => list_campaigns w
  | Call_list_automations => list_automations w
  | Call_list_users => list_users w
  | Call_list_pipelines => list_pipelines w
  | Call_list_messages => list_messages w
  | Call_get_deal deal_id => get_deal w deal_id
  | Call_list_deals => list_deals w
  | Call_create_an_account_note account_id note_text =>
      create_an_account_note w account_id note_text
  | Call_get_tag tag_id => get_tag w tag_id
  | Call_get_campaign campaign_id => get_campaign w campaign_id
  | Call_get_pipeline pipeline_id => get_pipeline w pipeline_id
  | Call_update_message message_id name subject fromname fromemail =>
      update_message w message_id name subject fromname fromemail
  | Call_get_message message_id => get_message w message_id
  | Call_health_check => health_check w
  | Call_get_nango_connection_info => get_nango_connection_info w
  end.

(** * Vocabulary of the statements *)

(** ** Sample environments *)

Definition sample_environ (k : string) : option string :=
  if (k =? "NANGO_CONNECTION_ID")%string then Some "conn-1"
  else if (k =? "NANGO_INTEGRATION_ID")%string then Some "active-campaign"
  else if (k =? "NANGO_BASE_URL")%string then Some "https://api.nango.dev"
  else if (k =? "NANGO_SECRET_KEY")%string then Some "s3cr3t"
  else None.

Definition sample_credentials : json :=
  JObj [("connection_id", JStr "conn-1");
        ("provider", JStr "active-campaign");
        ("credentials", JObj [("type", JStr "API_KEY");
                              ("apiKey", JStr "k-123")]);
        ("connection_config", JObj [("hostname", JStr "acme.api-us1.com")])].

Definition ok_response (v : json) : response :=
  mkResponse 200 "OK" "" (inr v).

Definition sample_deals : json :=
  JObj [("deals", JArr [JObj [("id", JStr "1"); ("title", JStr "Deal A")]])].

Definition sample_world : World :=
  mkWorld sample_environ
    (fun _ _ => Responds (ok_response sample_credentials))
    (fun _ _ => Responds (ok_response sample_deals)).

(** ** One run, call by call *)

Definition env_ready (w : World) : bool :=
  forallb env_truthy
    [environ w "NANGO_CONNECTION_ID"; environ w "NANGO_INTEGRATION_ID";
     environ w "NANGO_BASE_URL"; environ w "NANGO_SECRET_KEY"].

(** The one request [get_connection_credentials] ever sends. *)
Definition nango_request (w : World) : request :=
  mkRequest "GET"
    (fmt_env (environ w "NANGO_BASE_URL") ++ "/connection/"
     ++ fmt_env (environ w "NANGO_CONNECTION_ID"))
    [("Authorization", JStr ("Bearer " ++ fmt_env (environ w "NANGO_SECRET_KEY")))]
    [("provider_config_key", fmt_env (environ w "NANGO_INTEGRATION_ID"));
     ("refresh_token", "true")]
    None None.

(** [raise_for_status] then [json()] on whatever the service answered. *)
Definition decoded (o : outcome) : result json :=
  match o with
  | Raises e => Raise e
  | Responds r =>
      match raise_for_status r with
      | Raise e => Raise e
      | Return _ => response_json r
      end
  end.

Definition config_failure (e : exn) : exn :=
  ValueError ("Failed to get ActiveCampaign config from Nango: " ++ exn_str e).

(** The body of [get_activecampaign_config] after the broker has answered. *)
Definition extract_config (credentials : json) : result (string * json) :=
  match py_get credentials "credentials" (JObj []) with
  | Raise e => Raise e
  | Return c =>
      match py_get c "apiKey" JNull with
      | Raise e => Raise e
      | Return api_key =>
          if negb (truthy api_key) then
            Raise (ValueError "API key not found in Nango credentials")
          else
            match py_get credentials "connection_config" (JObj []) with
            | Raise e => Raise e
            | Return cc =>
                match py_get cc "hostname" JNull with
                | Raise e => Raise e
                | Return hostname =>
                    if negb (truthy hostname) then
                      Raise (ValueError
                               "Hostname not found in Nango connection config")
                    else Return ("https://" ++ py_str hostname, api_key)
                end
            end
      end
  end.

Definition api_headers (api_key : json) : list (string * json) :=
  [("Api-Token", api_key);
   ("Content-Type", JStr "application/json");
   ("Accept", JStr "application/json")].

(** The request the verb dispatch of [make_request] sends, if any. *)
Definition api_request (method url : string) (hs : list (string * json))
  (data : option json) : option request :=
  if (upper method =? "GET")%string then
    Some (mkRequest "GET" url hs [] None (Some 30))
  else if (upper method =? "POST")%string then
    Some (mkRequest "POST" url hs [] data (Some 30))
  else if (upper method =? "PUT")%string then
    Some (mkRequest "PUT" url hs [] data (Some 30))
  else if (upper method =? "DELETE")%string then
    Some (mkRequest "DELETE" url hs [] None (Some 30))
  else None.

Definition error_value (e : exn) : json :=
  JObj [("error", JStr (exn_str e)); ("status_code", status_code_of e)].

(** What [make_request] hands back once the target API has answered. *)
Definition executed (o : outcome) : result json :=
  match decoded o with
  | Return v => Return v
  | Raise (RequestException m s) => Return (error_value (RequestException m s))
  | Raise e => Raise e
  end.

(** ** Logs *)

Definition is_broker (ev : event) : bool :=
  match ev with BrokerCall _ => true | ApiCall _ => false end.

Definition is_api (ev : event) : bool :=
  match ev with BrokerCall _ => false | ApiCall _ => true end.

Definition broker_calls (l : trace) : nat := length (filter is_broker l).

Definition api_calls (l : trace) : nat := length (filter is_api l).

(** At most [k] calls of the broker, then at most one call of the API. *)
Fixpoint brokers_then_api (k : nat) (l : trace) {struct l} : bool :=
  match l with
  | [] => true
  | BrokerCall _ :: l' =>
      match k with
      | O => false
      | S k' => brokers_then_api k' l'
      end
  | ApiCall _ :: l' => match l' with [] => true | _ => false end
  end.

(** The calls one run of [make_request] adds to the log. *)
Inductive executor_calls (w : World) (method endpoint : string)
  (data : option json) : trace -> Prop :=
| calls_env_missing : executor_calls w method endpoint data []
| calls_first_failed :
    executor_calls w method endpoint data [BrokerCall (nango_request w)]
| calls_no_request :
    executor_calls w method endpoint data
      [BrokerCall (nango_request w); BrokerCall (nango_request w)]
| calls_request api_url api_key r :
    api_request method (rstrip_slash api_url ++ endpoint)
      (api_headers api_key) data = Some r ->
    executor_calls w method endpoint data
      [BrokerCall (nango_request w); BrokerCall (nango_request w); ApiCall r].

(** ** The catalogue of entity tools *)

(** The fields that a call of [update_message] supplies, in the order of the
    signature. *)
Definition supplied_fields (name subject fromname fromemail : option string)
  : list (string * json) :=
  flat_map (fun kv => match kv with
                      | (k, Some s) => [(k, JStr s)]
                      | (_, None) => []
                      end)
    [("name", name); ("subject", subject);
     ("fromname", fromname); ("fromemail", fromemail)].

(** Verb, endpoint, body and response model of each tool that goes through
    [make_request] once and wraps the result; [None] for the two diagnostic
    tools. *)
Definition tool_spec (c : tool_call)
  : option (string * string * option json * model) :=
  match c with
  | Call_update_list_status_for_contact contact_id list_id status =>
      Some ("POST", "/api/3/contacts/" ++ contact_id ++ "/contactLists",
            Some (JObj [("contactList",
                         JObj [("list", JStr list_id);
                               ("contact", JStr contact_id);
                               ("status", JNum status)])]),
            ContactResponse)
  | Call_get_custom_field_contact field_id =>
      Some ("GET", "/api/3/fields/" ++ field_id, None, FieldValueResponse)
  | Call_list_custom_field_values _ =>
      Some ("GET", "/api/3/fieldValues", None, FieldValueResponse)
  | Call_get_list list_id =>
      Some ("GET", "/api/3/lists/" ++ list_id, None, ListResponse)
  | Call_list_campaigns => Some ("GET", "/api/3/campaigns", None, CampaignResponse)
  | Call_list_automations =>
      Some ("GET", "/api/3/automations", None, AutomationResponse)
  | Call_list_users => Some ("GET", "/api/3/users", None, UserResponse)
  | Call_list_pipelines => Some ("GET", "/api/3/dealGroups", None, PipelineResponse)
  | Call_list_messages => Some ("GET", "/api/3/messages", None, MessageResponse)
  | Call_get_deal deal_id =>
      Some ("GET", "/api/3/deals/" ++ deal_id, None, DealResponse)
  | Call_list_deals => Some ("GET", "/api/3/deals", None, DealResponse)
  | Call_create_an_account_note account_id note_text =>
      Some ("POST", "/api/3/notes",
            Some (JObj [("note",
                         JObj [("note", JStr note_text);
                               ("relid", JStr account_id);
                               ("reltype", JStr "account")])]),
            AccountResponse)
  | Call_get_tag tag_id =>
      Some ("GET", "/api/3/tags/" ++ tag_id, None, TagResponse)
  | Call_get_campaign campaign_id =>
      Some ("GET", "/api/3/campaigns/" ++ campaign_id, None, CampaignResponse)
  | Call_get_pipeline pipeline_id =>
      Some ("GET", "/api/3/dealGroups/" ++ pipeline_id, None, PipelineResponse)
  | Call_update_message message_id name subject fromname fromemail =>
      Some ("PUT", "/api/3/messages/" ++ message_id,
            Some (JObj [("message",
                         JObj (supplied_fields name subject fromname
                                 fromemail))]),
            MessageResponse)
  | Call_get_message message_id =>
      Some ("GET", "/api/3/messages/" ++ message_id, None, MessageResponse)
  | Call_health_check => None
  | Call_get_nango_connection_info => None
  end.

(** ** Diagnostics *)

Definition error_status (message : json) : json :=
  JObj [("status", JStr "error"); ("message", message)].

(** The tail of [health_check] once both calls have returned. *)
Definition health_report (credentials answer : json) : result json :=
  match py_in "error" answer with
  | Raise e => Raise e
  | Return true =>
      match py_getitem answer "error" with
      | Raise e => Raise e
      | Return message => Return (error_status message)
      end
  | Return false =>
      match py_get credentials "connection_id" JNull with
      | Raise e => Raise e
      | Return connection_id =>
          match py_get credentials "connection_config" (JObj []) with
          | Raise e => Raise e
          | Return cc =>
              match py_get cc "hostname" JNull with
              | Raise e => Raise e
              | Return hostname =>
                  match py_get credentials "provider" JNull with
                  | Raise e => Raise e
                  | Return provider =>
                      Return
                        (JObj [("status", JStr "ok");
                               ("message",
                                JStr "API connection successful via Nango");
                               ("connection_id", connection_id);
                               ("hostname", hostname);
                               ("provider", provider)])
                  end
              end
          end
      end
  end.

Definition caught (r : result json) : result json :=
  match r with
  | Return v => Return v
  | Raise e => Return (error_status (JStr (exn_str e)))
  end.

(** The number of broker calls a tool may make. *)
Definition broker_budget (c : tool_call) : nat :=
  match c with
  | Call_health_check => 3
  | Call_get_nango_connection_info => 1
  | _ => 2
  end.

Definition is_entity (c : tool_call) : bool :=
  match tool_spec c with
  | Some _ => true
  | None => false
  end.

(** ** More environments *)

(** No environment variable is set. *)
Definition unconfigured_world : World :=
  mkWorld (fun _ => None) (nango sample_world) (activecampaign sample_world).

(** The broker answers without [credentials.apiKey]. *)
Definition keyless_credentials : json :=
  JObj [("connection_id", JStr "conn-1");
        ("credentials", JObj [("type", JStr "API_KEY")]);
        ("connection_config", JObj [("hostname", JStr "acme.api-us1.com")])].

Definition keyless_world : World :=
  mkWorld sample_environ
    (fun _ _ => Responds (ok_response keyless_credentials))
    (activecampaign sample_world).

(** ** Verbs and statuses *)

Definition supported (method : string) : bool :=
  existsb (String.eqb (upper method)) ["GET"; "POST"; "PUT"; "DELETE"].

(** The target API gives the same answer to every request. *)
Definition answering_world (r : response) : World :=
  mkWorld sample_environ (nango sample_world) (fun _ _ => Responds r).

Definition error_message (r : response) : string :=
  http_error_msg (if status_code r <? 500 then "Client" else "Server") r.

(** An envelope that carries [msg] in its [error] field and nothing else. *)
Definition error_envelope (m : model) (msg : string) : json :=
  JObj (map (fun kv => (fst kv,
                        if (fst kv =? "error")%string then JStr msg else JNull))
          (model_fields m)).

Definition not_found : response :=
  mkResponse 404 "Not Found" "https://acme.api-us1.com/api/3/deals/7"
    (inr (JObj [("message", JStr "No Result found for Deal with id 7")])).

Definition sample_api_headers : list (string * json) :=
  [("Api-Token", JStr "k-123");
   ("Content-Type", JStr "application/json");
   ("Accept", JStr "application/json")].

(** ** Lookups *)

Definition or_null (o : option json) : json :=
  match o with
  | Some v => v
  | None => JNull
  end.

(** [v[k1][k2]] when both levels are dictionaries that hold the key. *)
Definition lookup2 (v : json) (k1 k2 : string) : option json :=
  match v with
  | JObj d =>
      match dict_get d k1 with
      | Some (JObj d') => dict_get d' k2
      | _ => None
      end
  | _ => None
  end.

(** ** Start-up *)

(** [run] prints as well as it calls the broker, and what it has printed
    stays printed when a later statement raises: its computations thread the
    lines printed so far next to the log of calls. *)
Definition IO (A : Type) : Type :=
  list string -> trace -> result A * list string * trace.

Definition io_ret {A} (a : A) : IO A := fun out t => (Return a, out, t).

Definition io_bind {A B} (m : IO A) (k : A -> IO B) : IO B :=
  fun out t =>
    match m out t with
    | (Return a, out', t') => k a out' t'
    | (Raise e, out', t') => (Raise e, out', t')
    end.

(** A computation that prints nothing. *)
Definition io_lift {A} (m : M A) : IO A :=
  fun out t =>
    match m t with
    | (r, t') => (r, out, t')
    end.

(** The standard output: given the lines printed so far and the next line,
    it takes the line or raises, as [sys.stdout] does when its encoding
    lacks a character of the line or when its pipe is closed. *)
Definition Console : Type := list string -> string -> option exn.

(** [print(s)] *)
Definition print (console : Console) (s : string) : IO unit :=
  fun out t =>
    match console out s with
    | None => (Return tt, (out ++ [s])%list, t)
    | Some e => (Raise e, out, t)
    end.

Definition io_try_except {A} (m : IO A) (h : exn -> option (IO A)) : IO A :=
  fun out t =>
    match m out t with
    | (Return a, out', t') => (Return a, out', t')
    | (Raise e, out', t') =>
        match h e with
        | Some k => k out' t'
        | None => (Raise e, out', t')
        end
    end.

Notation "x <<- m ;; k" := (io_bind m (fun x => k))
  (at level 61, m at next level, right associativity).
Notation "' pat <<- m ;; k" :=
  (io_bind m (fun x => match x with pat => k end))
  (at level 61, pat pattern, m at next level, right associativity).

Definition required_nango_vars : list string :=
  ["NANGO_CONNECTION_ID"; "NANGO_INTEGRATION_ID";
   "NANGO_BASE_URL"; "NANGO_SECRET_KEY"].

(** [[var for var in required_nango_vars if not os.getenv(var)]] *)
Definition missing_vars (w : World) : list string :=
  filter (fun var => negb (env_truthy (environ w var))) required_nango_vars.

(** The statements of [run] that come before its last one, [mcp.run], which
    hands the process over to the serving loop of FastMCP. *)
Definition run (w : World) (console : Console) : IO unit :=
  _ <<- (match missing_vars w with
         | [] => io_ret tt
         | _ :: _ =>
             print console ("Warning: Missing Nango environment variables: "
                    ++ join ", " (missing_vars w))
         end);;
  io_try_except
    (credentials <<- io_lift (get_connection_credentials w);;
     '(api_url, api_key) <<- io_lift (get_activecampaign_config w);;
     _ <<- print console "✓ Successfully connected to Nango";;
     connection_id <<- io_lift (lift (py_get credentials "connection_id" JNull));;
     _ <<- print console ("  - Connection ID: " ++ py_str connection_id);;
     provider <<- io_lift (lift (py_get credentials "provider" JNull));;
     _ <<- print console ("  - Provider: " ++ py_str provider);;
     cc <<- io_lift (lift (py_get credentials "connection_config" (JObj [])));;
     hostname <<- io_lift (lift (py_get cc "hostname" JNull));;
     _ <<- print console ("  - Hostname: " ++ py_str hostname);;
     _ <<- print console ("  - API URL: " ++ api_url);;
     last_fetched_at <<-
       io_lift (lift (py_get credentials "last_fetched_at" JNull));;
     print console ("  - Last fetched: " ++ py_str last_fetched_at))
    (fun e => Some (print console ("✗ Failed to connect to Nango: " ++ exn_str e))).

(** ** Environments whose broker changes its answer *)

Definition credentials_with_key (k : string) : json :=
  JObj [("connection_id", JStr "conn-1");
        ("credentials", JObj [("type", JStr "API_KEY"); ("apiKey", JStr k)]);
        ("connection_config", JObj [("hostname", JStr "acme.api-us1.com")])].

(** The broker hands out one key on its first call and another afterwards. *)
Definition rotating_world : World :=
  mkWorld sample_environ
    (fun t _ =>
       Responds (ok_response
                   (credentials_with_key
                      (match t with [] => "k-old" | _ :: _ => "k-new" end))))
    (activecampaign sample_world).

(** The broker refuses the secret key. *)
Definition unauthorized : response :=
  mkResponse 401 "Unauthorized" "https://api.nango.dev/connection/conn-1"
    (inr (JObj [("error", JStr "invalid secret key")])).

Definition refusing_world : World :=
  mkWorld sample_environ (fun _ _ => Responds unauthorized)
    (activecampaign sample_world).

(** The call of the target API times out. *)
Definition timing_out_world : World :=
  mkWorld sample_environ (nango sample_world)
    (fun _ _ => Raises (RequestException "Read timed out. (read timeout=30)"
                          None)).

(** The secret key is set, but empty. *)
Definition blank_secret_world : World :=
  mkWorld (fun k => if (k =? "NANGO_SECRET_KEY")%string then Some ""
                    else sample_environ k)
    (nango sample_world) (activecampaign sample_world).

(** The target API answers 204 without a body. *)
Definition no_content : response :=
  mkResponse 204 "No Content" "https://acme.api-us1.com/api/3/deals/7"
    (inl "Expecting value: line 1 column 1 (char 0)").

(** ** What start-up prints *)

Definition warning_lines (w : World) : list string :=
  match missing_vars w with
  | [] => []
  | _ :: _ => ["Warning: Missing Nango environment variables: "
               ++ join ", " (missing_vars w)]
  end.

Definition failure_line (e : exn) : string :=
  "✗ Failed to connect to Nango: " ++ exn_str e.

(** The lines [run] prints once both resolutions have returned: the report,
    cut short by the failure line where one of its lookups raises. *)
Definition startup_report (credentials : json) (api_url : string)
  : list string :=
  "✓ Successfully connected to Nango" ::
  match py_get credentials "connection_id" JNull with
  | Raise e => [failure_line e]
  | Return connection_id =>
      ("  - Connection ID: " ++ py_str connection_id) ::
      match py_get credentials "provider" JNull with
      | Raise e => [failure_line e]
      | Return provider =>
          ("  - Provider: " ++ py_str provider) ::
          match py_get credentials "connection_config" (JObj []) with
          | Raise e => [failure_line e]
          | Return cc =>
              match py_get cc "hostname" JNull with
              | Raise e => [failure_line e]
              | Return hostname =>
                  ("  - Hostname: " ++ py_str hostname) ::
                  ("  - API URL: " ++ api_url) ::
                  match py_get credentials "last_fetched_at" JNull with
                  | Raise e => [failure_line e]
                  | Return last_fetched_at =>
                      ["  - Last fetched: " ++ py_str last_fetched_at]
                  end
              end
          end
      end
  end.

(** ** ASCII strings *)

Fixpoint is_ascii (s : string) : bool :=
  match s with
  | EmptyString => true
  | String c s' => (nat_of_ascii c <? 128)%nat && is_ascii s'
  end.

(** ** Nested objects *)

(** What [d.get(k, {})] hands to a further [.get]: the object under [k],
    the empty object when [k] is absent, nothing usable otherwise. *)
Definition sub_object (d : list (string * json)) (k : string)
  : option (list (string * json)) :=
  match dict_get d k with
  | None => Some []
  | Some (JObj c) => Some c
  | Some _ => None
  end.

(** ** When the diagnostic tools succeed *)

(** A broker answer on which the lookups of [health_check] go through: an
    object whose [connection_config] is an object or is absent. *)
Definition usable_probe (credentials : json) : bool :=
  match credentials with
  | JObj fields =>
      match sub_object fields "connection_config" with
      | Some _ => true
      | None => false
      end
  | _ => false
  end.

(** An answer of the executor for which ["error" in result] is false. *)
Definition answer_is_clean (answer : json) : bool :=
  match py_in "error" answer with
  | Return false => true
  | _ => false
  end.

(** The run of [health_check] in which nothing raises and the executor
    returns no error: the probe returns a usable answer, the executor request
    returns, and what it returns holds no ["error"]. *)
Definition health_check_succeeds (w : World) (t : trace) : bool :=
  match get_connection_credentials w t with
  | (Return credentials, t1) =>
      usable_probe credentials &&
      match make_request w "GET" "/api/3/users" None t1 with
      | (Return answer, _) => answer_is_clean answer
      | (Raise _, _) => false
      end
  | (Raise _, _) => false
  end.

(** A broker answer on which the lookups of [get_nango_connection_info] go
    through: an object whose [connection_config] and [credentials] are
    objects or are absent. *)
Definition reportable (credentials : json) : bool :=
  match credentials with
  | JObj fields =>
      match sub_object fields "connection_config",
            sub_object fields "credentials" with
      | Some _, Some _ => true
      | _, _ => false
      end
  | _ => false
  end.

Definition connection_info_succeeds (w : World) (t : trace) : bool :=
  match get_connection_credentials w t with
  | (Return credentials, _) => reportable credentials
  | (Raise _, _) => false
  end.

(** The tail of [get_nango_connection_info] once the broker has answered. *)
Definition connection_report (credentials : json) : result json :=
  match py_get credentials "connection_id" JNull with
  | Raise e => Raise e
  | Return connection_id =>
  match py_get credentials "provider" JNull with
  | Raise e => Raise e
  | Return provider =>
  match py_get credentials "provider_config_key" JNull with
  | Raise e => Raise e
  | Return provider_config_key =>
  match py_get credentials "connection_config" (JObj []) with
  | Raise e => Raise e
  | Return cc =>
  match py_get cc "hostname" JNull with
  | Raise e => Raise e
  | Return hostname =>
  match py_get credentials "created_at" JNull with
  | Raise e => Raise e
  | Return created_at =>
  match py_get credentials "last_fetched_at" JNull with
  | Raise e => Raise e
  | Return last_fetched_at =>
  match py_get credentials "end_user" (JObj []) with
  | Raise e => Raise e
  | Return end_user =>
  match py_get credentials "credentials" (JObj []) with
  | Raise e => Raise e
  | Return c =>
  match py_get c "apiKey" JNull with
  | Raise e => Raise e
  | Return api_key =>
  match py_get c "type" JNull with
  | Raise e => Raise e
  | Return credential_type =>
      Return (JObj [("status", JStr "success");
                    ("connection_id", connection_id);
                    ("provider", provider);
                    ("provider_config_key", provider_config_key);
                    ("hostname", hostname);
                    ("created_at", created_at);
                    ("last_fetched_at", last_fetched_at);
                    ("end_user", end_user);
                    ("has_api_key", JBool (truthy api_key));
                    ("credential_type", credential_type)])
  end end end end end end end end end end end.

(** ** Standard outputs *)

(** A standard output that takes every line. *)
Definition accepting (console : Console) : Prop :=
  forall out s, console out s = None.

Definition utf8_console : Console := fun _ _ => None.

(** A standard output whose encoding holds the ASCII characters only. *)
Definition ascii_console : Console :=
  fun _ s =>
    if is_ascii s then None
    else Some (OtherException "'ascii' codec can't encode character").

(** The broker answers the first call in full and forgets the key afterwards. *)
Definition forgetful_world : World :=
  mkWorld sample_environ
    (fun t _ =>
       Responds (ok_response
                   (match t with
                    | [] => sample_credentials
                    | _ :: _ => keyless_credentials
                    end)))
    (activecampaign sample_world).

(** * Properties *)

(** ** What one run does, call by call *)

(** Case analysis on a scrutinee that holds no further case analysis. *)
Ltac break_match :=
  match goal with
  | |- context [match ?x with _ => _ end] =>
      lazymatch x with
      | context [match _ with _ => _ end] => fail
      | _ => destruct x eqn:?
      end
  end.

Lemma get_connection_credentials_eq (w : World) (t : trace) :
  get_connection_credentials w t =
  if env_ready w then
    (decoded (nango w t (nango_request w)),
     (t ++ [BrokerCall (nango_request w)])%list)
  else (Raise (ValueError "Missing required Nango environment variables"), t).
Proof.
  unfold get_connection_credentials.
  fold (env_ready w). fold (nango_request w).
  destruct (env_ready w); cbn [negb]; [|reflexivity].
  unfold bind, send, lift, decoded, oracle, tag.
  destruct (nango w t (nango_request w)) as [e|r]; [reflexivity|].
  destruct (raise_for_status r); reflexivity.
Qed.

Lemma get_activecampaign_config_eq (w : World) (t : trace) :
  get_activecampaign_config w t =
  match get_connection_credentials w t with
  | (Return credentials, t') =>
      (match extract_config credentials with
       | Return x => Return x
       | Raise e => Raise (config_failure e)
       end, t')
  | (Raise e, t') => (Raise (config_failure e), t')
  end.
Proof.
  unfold get_activecampaign_config, try_except, bind.
  destruct (get_connection_credentials w t) as [[c|e] t']; [|reflexivity].
  unfold extract_config, lift, raise, ret.
  repeat (break_match; try reflexivity; try congruence).
Qed.

Lemma get_headers_eq (w : World) (t : trace) :
  get_headers w t =
  match get_activecampaign_config w t with
  | (Return (_, api_key), t') => (Return (api_headers api_key), t')
  | (Raise e, t') => (Raise e, t')
  end.
Proof.
  unfold get_headers, bind, ret, api_headers.
  destruct (get_activecampaign_config w t) as [[[u k]|e] t']; reflexivity.
Qed.

Lemma make_request_eq (w : World) (method endpoint : string)
  (data : option json) (t : trace) :
  make_request w method endpoint data t =
  match get_activecampaign_config w t with
  | (Raise e, t1) => (Raise e, t1)
  | (Return (api_url, _), t1) =>
      match get_headers w t1 with
      | (Raise e, t2) => (Raise e, t2)
      | (Return hs, t2) =>
          match api_request method (rstrip_slash api_url ++ endpoint) hs data
          with
          | Some r =>
              (executed (activecampaign w t2 r), (t2 ++ [ApiCall r])%list)
          | None =>
              (Raise (ValueError ("Unsupported HTTP method: " ++ method)), t2)
          end
      end
  end.
Proof.
  unfold make_request, bind at 1.
  destruct (get_activecampaign_config w t) as [[[api_url k]|e] t1];
    [|reflexivity].
  unfold bind at 1.
  destruct (get_headers w t1) as [[hs|e] t2]; [|reflexivity].
  unfold api_request, try_except, bind, executed, decoded, error_value.
  repeat (destruct (upper method =? _)%string;
          [unfold send, oracle, tag, lift;
           destruct (activecampaign w t2 _) as [e|r];
           [destruct e; reflexivity|];
           destruct (raise_for_status r) as [u|e];
           [destruct (response_json r) as [v|e]; [reflexivity|]|];
           destruct e; reflexivity|]).
  reflexivity.
Qed.

(** Resolving the configuration contacts the broker at most once and fails
    with nothing but the [ValueError] of its [except] clause. *)
Lemma get_activecampaign_config_cases (w : World) (t : trace) :
  (exists e, env_ready w = false /\
             get_activecampaign_config w t = (Raise (config_failure e), t))
  \/ (exists e, env_ready w = true /\
                get_activecampaign_config w t =
                (Raise (config_failure e),
                 (t ++ [BrokerCall (nango_request w)])%list))
  \/ (exists api_url api_key,
         env_ready w = true /\
         get_activecampaign_config w t =
         (Return (api_url, api_key),
          (t ++ [BrokerCall (nango_request w)])%list)).
Proof.
  rewrite get_activecampaign_config_eq, get_connection_credentials_eq.
  destruct (env_ready w).
  - right.
    destruct (decoded (nango w t (nango_request w))) as [c|e].
    + destruct (extract_config c) as [[u k]|e].
      * right. exists u, k. split; reflexivity.
      * left. exists e. split; reflexivity.
    + left. exists e. split; reflexivity.
  - left. eexists. split; reflexivity.
Qed.

Lemma make_request_calls (w : World) (method endpoint : string)
  (data : option json) (t : trace) :
  exists l, snd (make_request w method endpoint data t) = (t ++ l)%list
            /\ executor_calls w method endpoint data l.
Proof.
  rewrite make_request_eq.
  destruct (get_activecampaign_config_cases w t)
    as [(e & _ & ->)|[(e & _ & ->)|(u & k & _ & ->)]].
  - exists []. rewrite app_nil_r. split; [reflexivity|constructor].
  - eexists. split; [reflexivity|constructor].
  - rewrite get_headers_eq.
    destruct (get_activecampaign_config_cases
                w (t ++ [BrokerCall (nango_request w)])%list)
      as [(e & _ & ->)|[(e & _ & ->)|(u' & k' & _ & ->)]].
    + eexists. split; [reflexivity|constructor].
    + eexists. rewrite <- app_assoc. split; [reflexivity|constructor].
    + destruct (api_request method (rstrip_slash u ++ endpoint)
                  (api_headers k') data) as [r|] eqn:Hr.
      * eexists. cbn [snd]. rewrite <- !app_assoc.
        split; [reflexivity|]. cbn [app]. econstructor. exact Hr.
      * eexists. rewrite <- app_assoc. split; [reflexivity|constructor].
Qed.

(** ** The catalogue of entity tools *)

Lemma update_message_eq (w : World) (message_id : string)
  (name subject fromname fromemail : option string) (t : trace) :
  update_message w message_id name subject fromname fromemail t =
  (result <- make_request w "PUT" ("/api/3/messages/" ++ message_id)
               (Some (JObj [("message",
                             JObj (supplied_fields name subject fromname
                                     fromemail))]));;
   lift (construct MessageResponse result)) t.
Proof.
  destruct name, subject, fromname, fromemail; reflexivity.
Qed.

Lemma invoke_entity (w : World) (c : tool_call) (method endpoint : string)
  (data : option json) (m : model) (t : trace) :
  tool_spec c = Some (method, endpoint, data, m) ->
  invoke w c t =
  (result <- make_request w method endpoint data;;
   lift (construct m result)) t.
Proof.
  destruct c; cbn [tool_spec]; intros H; inversion H; subst;
    try reflexivity.
  apply update_message_eq.
Qed.

Lemma wrapped_result {A B} (m : M A) (f : A -> result B) (t : trace) :
  (x <- m;; lift (f x)) t =
  (match fst (m t) with
   | Return a => f a
   | Raise e => Raise e
   end, snd (m t)).
Proof.
  unfold bind, lift. destruct (m t) as [[a|e] t']; reflexivity.
Qed.

(** ** The diagnostic tools, step by step *)

Lemma health_check_eq (w : World) (t : trace) :
  health_check w t =
  match get_connection_credentials w t with
  | (Raise e, t1) => (caught (Raise e), t1)
  | (Return credentials, t1) =>
      match make_request w "GET" "/api/3/users" None t1 with
      | (Raise e, t2) => (caught (Raise e), t2)
      | (Return result, t2) => (caught (health_report credentials result), t2)
      end
  end.
Proof.
  unfold health_check, try_except, bind at 1.
  destruct (get_connection_credentials w t) as [[c|e] t1]; [|reflexivity].
  unfold bind at 1.
  destruct (make_request w "GET" "/api/3/users" None t1) as [[r|e] t2];
    [|reflexivity].
  unfold health_report, caught, bind, lift, ret, error_status.
  repeat (break_match; try reflexivity; try congruence).
Qed.

Lemma health_check_trace (w : World) (t : trace) :
  snd (health_check w t) =
  match get_connection_credentials w t with
  | (Raise _, t1) => t1
  | (Return _, t1) => snd (make_request w "GET" "/api/3/users" None t1)
  end.
Proof.
  rewrite health_check_eq.
  destruct (get_connection_credentials w t) as [[c|e] t1]; [|reflexivity].
  destruct (make_request w "GET" "/api/3/users" None t1) as [[r|e] t2];
    reflexivity.
Qed.

Lemma get_nango_connection_info_trace (w : World) (t : trace) :
  snd (get_nango_connection_info w t) = snd (get_connection_credentials w t).
Proof.
  unfold get_nango_connection_info, try_except, bind at 1.
  destruct (get_connection_credentials w t) as [[c|e] t1]; [|reflexivity].
  unfold bind, lift, ret.
  repeat (break_match; try reflexivity; try congruence).
Qed.

(** ** Counting the calls *)

Lemma executor_calls_shape (w : World) (method endpoint : string)
  (data : option json) (l : trace) :
  executor_calls w method endpoint data l ->
  brokers_then_api 2 l = true
  /\ (broker_calls l <= 2)%nat /\ (api_calls l <= 1)%nat
  /\ (api_calls l = 1%nat -> broker_calls l = 2%nat).
Proof.
  intros H. destruct H; cbn; repeat split; try lia.
Qed.

Lemma entity_calls (w : World) (c : tool_call) (method endpoint : string)
  (data : option json) (m : model) (t : trace) :
  tool_spec c = Some (method, endpoint, data, m) ->
  exists l, snd (invoke w c t) = (t ++ l)%list
            /\ executor_calls w method endpoint data l.
Proof.
  intros H. rewrite (invoke_entity w c t H), wrapped_result. cbn [snd].
  apply make_request_calls.
Qed.

Lemma brokers_then_api_length (k : nat) (l : trace) :
  brokers_then_api k l = true -> (length l <= k + 1)%nat.
Proof.
  revert k. induction l as [|ev l IH]; intros k H; [cbn; lia|].
  destruct ev; cbn [brokers_then_api] in H.
  - destruct k; [discriminate H|]. apply IH in H. cbn [length]. lia.
  - destruct l; [cbn; lia|discriminate H].
Qed.

Lemma invoke_calls (w : World) (c : tool_call) :
  brokers_then_api (broker_budget c) (snd (invoke w c [])) = true.
Proof.
  destruct (tool_spec c) as [[[[method endpoint] data] m]|] eqn:Hc.
  - destruct (entity_calls w c [] Hc) as (l & -> & Hl).
    apply executor_calls_shape in Hl. cbn [app].
    destruct c; try discriminate Hc; apply Hl.
  - destruct c; try discriminate Hc; cbn [invoke broker_budget].
    + rewrite health_check_trace, get_connection_credentials_eq.
      destruct (env_ready w); [|reflexivity]. cbn [app].
      destruct (decoded (nango w [] (nango_request w))); [|reflexivity].
      destruct (make_request_calls w "GET" "/api/3/users" None
                  [BrokerCall (nango_request w)]) as (l & -> & Hl).
      apply executor_calls_shape in Hl. cbn. apply Hl.
    + rewrite get_nango_connection_info_trace, get_connection_credentials_eq.
      destruct (env_ready w); reflexivity.
Qed.

(** C1, as the program behaves: a tool invocation makes at most four calls,
    at most three of them to the broker (two by the executor, which resolves
    the configuration once for the base URL and once more for the headers,
    and one by the probe of [health_check]), all of them before the single
    call, if any, of the target API; one executor request calls the broker at
    most twice, and exactly twice whenever it reaches the target API. *)
Theorem round_trips_per_invocation (w : World) (c : tool_call) :
  brokers_then_api (broker_budget c) (snd (invoke w c [])) = true
  /\ (broker_budget c <= 3)%nat
  /\ (length (snd (invoke w c [])) <= 4)%nat
  /\ forall method endpoint data t,
       exists l,
         snd (make_request w method endpoint data t) = (t ++ l)%list
         /\ brokers_then_api 2 l = true
         /\ (broker_calls l <= 2)%nat /\ (api_calls l <= 1)%nat
         /\ (api_calls l = 1%nat -> broker_calls l = 2%nat).
Proof.
  pose proof (invoke_calls w c) as H.
  assert (Hb : (broker_budget c <= 3)%nat) by (destruct c; cbn; lia).
  repeat split; [exact H|exact Hb| |].
  - apply brokers_then_api_length in H. lia.
  - intros method endpoint data t.
    destruct (make_request_calls w method endpoint data t) as (l & Hl & Hc).
    exists l. split; [exact Hl|]. exact (executor_calls_shape Hc).
Qed.

(** C1 as stated fails: [get_deal] with working credentials makes three
    calls, two of them by the credential resolver within the one executor
    request. *)
Lemma get_deal_three_round_trips :
  length (snd (invoke sample_world (Call_get_deal "7") [])) = 3%nat
  /\ broker_calls (snd (make_request sample_world "GET" "/api/3/deals/7"
                          None [])) = 2%nat.
Proof. split; reflexivity. Qed.

(** ** Errors of the configuration *)

Lemma make_request_config_error (w : World) (method endpoint : string)
  (data : option json) (t t1 : trace) (e : exn) :
  get_activecampaign_config w t = (Raise e, t1) ->
  make_request w method endpoint data t = (Raise e, t1).
Proof.
  intros H. rewrite make_request_eq, H. reflexivity.
Qed.

Lemma get_nango_connection_info_error (w : World) (t t1 : trace) (e : exn) :
  get_connection_credentials w t = (Raise e, t1) ->
  get_nango_connection_info w t =
  (Return (error_status (JStr (exn_str e))), t1).
Proof.
  intros H. unfold get_nango_connection_info, try_except, bind at 1.
  rewrite H. reflexivity.
Qed.

(** C2, as the program behaves.  Let a resolution of the configuration fail
    with [e].  An entity tool that starts with it does not catch [e], which
    leaves the tool as the [ValueError] it is.  [health_check] catches it and
    returns the status dictionary, both when the failing resolution is the
    one of its executor request and when its own probe of the broker is what
    failed; [get_nango_connection_info] does the same for its probe. *)
Theorem config_error_at_tool_boundary (w : World) (t t1 : trace) (e : exn) :
  get_activecampaign_config w t = (Raise e, t1) ->
  (forall c, is_entity c = true -> invoke w c t = (Raise e, t1))
  /\ (exists e0, e = config_failure e0)
  /\ (forall t0 credentials,
        get_connection_credentials w t0 = (Return credentials, t) ->
        health_check w t0 = (Return (error_status (JStr (exn_str e))), t1))
  /\ (forall e0,
        get_connection_credentials w t = (Raise e0, t1) ->
        health_check w t = (Return (error_status (JStr (exn_str e0))), t1)
        /\ get_nango_connection_info w t =
           (Return (error_status (JStr (exn_str e0))), t1)).
Proof.
  intros H. repeat split.
  - intros c Hc. unfold is_entity in Hc.
    destruct (tool_spec c) as [[[[method endpoint] data] m]|] eqn:Hs;
      [|discriminate Hc].
    rewrite (invoke_entity w c t Hs), wrapped_result.
    rewrite (make_request_config_error w method endpoint data t H).
    reflexivity.
  - destruct (get_activecampaign_config_cases w t)
      as [(e0 & _ & H0)|[(e0 & _ & H0)|(u & k & _ & H0)]];
      rewrite H0 in H; inversion H; subst; eauto.
  - intros t0 credentials H0.
    rewrite health_check_eq, H0.
    rewrite (make_request_config_error w "GET" "/api/3/users" None t H).
    reflexivity.
  - rewrite health_check_eq, H0. reflexivity.
  - apply get_nango_connection_info_error. assumption.
Qed.

Lemma config_error_at_tool_boundary_witness :
  invoke unconfigured_world (Call_get_deal "7") [] =
  (Raise (config_failure
            (ValueError "Missing required Nango environment variables")), [])
  /\ health_check unconfigured_world [] =
     (Return (error_status
                (JStr "Missing required Nango environment variables")), [])
  /\ get_nango_connection_info unconfigured_world [] =
     (Return (error_status
                (JStr "Missing required Nango environment variables")), [])
  /\ health_check keyless_world [] =
     (Return (error_status
                (JStr ("Failed to get ActiveCampaign config from Nango: "
                       ++ "API key not found in Nango credentials"))),
      [BrokerCall (nango_request keyless_world);
       BrokerCall (nango_request keyless_world)]).
Proof.
  destruct (@config_error_at_tool_boundary unconfigured_world [] []
              (config_failure
                 (ValueError "Missing required Nango environment variables"))
              eq_refl) as (H1 & _ & _ & H4).
  destruct (@config_error_at_tool_boundary keyless_world
              [BrokerCall (nango_request keyless_world)]
              [BrokerCall (nango_request keyless_world);
               BrokerCall (nango_request keyless_world)]
              (config_failure
                 (ValueError "API key not found in Nango credentials"))
              eq_refl) as (_ & _ & H3 & _).
  split; [exact (H1 (Call_get_deal "7") eq_refl)|].
  split; [exact (proj1 (H4 _ eq_refl))|].
  split; [exact (proj2 (H4 _ eq_refl))|].
  exact (H3 [] keyless_credentials eq_refl).
Defined.

(** C2 as stated fails for the entity tools: without environment variables
    [get_deal] returns no dictionary, it raises. *)
Lemma get_deal_raises_config_error :
  invoke unconfigured_world (Call_get_deal "7") [] =
  (Raise (ValueError
            ("Failed to get ActiveCampaign config from Nango: "
             ++ "Missing required Nango environment variables")), []).
Proof. reflexivity. Qed.

(** ** Unsupported verbs *)

Lemma api_request_unsupported (method url : string)
  (hs : list (string * json)) (data : option json) :
  supported method = false -> api_request method url hs data = None.
Proof.
  unfold supported, api_request. cbn [existsb].
  destruct (upper method =? "GET")%string; [discriminate|].
  destruct (upper method =? "POST")%string; [discriminate|].
  destruct (upper method =? "PUT")%string; [discriminate|].
  destruct (upper method =? "DELETE")%string; [discriminate|].
  reflexivity.
Qed.

(** C3, as the program behaves: a verb written in ASCII characters that is
    none of the four, whatever its case, makes the executor fail with a
    [ValueError] and never reaches the target API, but the verb is looked at
    only after the configuration has been resolved, so the broker has been
    called by then: twice when the failure is the one of the verb, up to
    twice when a resolution failed first. *)
Theorem unsupported_method_no_api_call (w : World) (method endpoint : string)
  (data : option json) (t : trace) :
  is_ascii method = true ->
  supported method = false ->
  exists msg l,
    make_request w method endpoint data t =
    (Raise (ValueError msg), (t ++ l)%list)
    /\ api_calls l = 0%nat
    /\ ((msg = "Unsupported HTTP method: " ++ method
         /\ l = [BrokerCall (nango_request w); BrokerCall (nango_request w)])
        \/ (exists e, ValueError msg = config_failure e
                      /\ (broker_calls l <= 2)%nat)).
Proof.
  intros _ Hm. rewrite make_request_eq.
  destruct (get_activecampaign_config_cases w t)
    as [(e & _ & ->)|[(e & _ & ->)|(u & k & Hr & ->)]].
  - eexists _, []. rewrite app_nil_r.
    split; [reflexivity|]. split; [reflexivity|].
    right. exists e. split; [reflexivity|cbn; lia].
  - eexists _, _. split; [reflexivity|]. split; [reflexivity|].
    right. exists e. split; [reflexivity|cbn; lia].
  - rewrite get_headers_eq.
    destruct (get_activecampaign_config_cases
                w (t ++ [BrokerCall (nango_request w)])%list)
      as [(e & He & _)|[(e & _ & ->)|(u' & k' & _ & ->)]].
    + congruence.
    + eexists _, _. rewrite <- app_assoc.
      split; [reflexivity|]. split; [reflexivity|].
      right. exists e. split; [reflexivity|cbn; lia].
    + rewrite (api_request_unsupported method _ _ data Hm).
      eexists _, _. rewrite <- app_assoc.
      split; [reflexivity|]. split; [reflexivity|].
      left. split; reflexivity.
Qed.

Lemma unsupported_method_no_api_call_witness :
  is_ascii "PATCH" = true
  /\ supported "PATCH" = false
  /\ exists msg l,
       make_request sample_world "PATCH" "/api/3/deals" None [] =
       (Raise (ValueError msg), ([] ++ l)%list)
       /\ api_calls l = 0%nat
       /\ ((msg = "Unsupported HTTP method: " ++ "PATCH"
            /\ l = [BrokerCall (nango_request sample_world);
                    BrokerCall (nango_request sample_world)])
           \/ (exists e, ValueError msg = config_failure e
                         /\ (broker_calls l <= 2)%nat)).
Proof.
  split; [reflexivity|]. split; [reflexivity|].
  exact (@unsupported_method_no_api_call sample_world "PATCH" "/api/3/deals"
           None [] eq_refl eq_refl).
Defined.

(** C3 as stated fails: with an unsupported verb and working credentials the
    executor has called the broker twice before it raises. *)
Lemma unsupported_method_calls_broker :
  supported "PATCH" = false
  /\ make_request sample_world "PATCH" "/api/3/deals" None [] =
     (Raise (ValueError "Unsupported HTTP method: PATCH"),
      [BrokerCall (nango_request sample_world);
       BrokerCall (nango_request sample_world)]).
Proof. split; reflexivity. Qed.

(** ** Error answers of the target API *)

Lemma raise_for_status_error (r : response) :
  400 <= status_code r < 600 ->
  raise_for_status r =
  Raise (RequestException (error_message r) (Some (status_code r))).
Proof.
  intros [Hlo Hhi]. unfold raise_for_status, error_message.
  destruct (Z.leb_spec 400 (status_code r)); [|lia].
  destruct (Z.ltb_spec (status_code r) 500); [reflexivity|].
  destruct (Z.leb_spec 500 (status_code r)); [|lia].
  destruct (Z.ltb_spec (status_code r) 600); [reflexivity|lia].
Qed.

Lemma construct_error_value (c : tool_call) (method endpoint : string)
  (data : option json) (m : model) (msg : string) (code : json) :
  tool_spec c = Some (method, endpoint, data, m) ->
  construct m (JObj [("error", JStr msg); ("status_code", code)]) =
  Return (error_envelope m msg).
Proof.
  destruct c; cbn [tool_spec]; intros H; inversion H; subst; reflexivity.
Qed.

(** C4, as the program behaves: when the target API answers an entity tool
    with a 4xx or 5xx status, the executor returns the dictionary with the
    message of the HTTP error and that status, and the envelope of the tool
    carries the message in [error] and [None] in every other field. *)
Theorem api_error_status_envelope (w : World) (c : tool_call)
  (method endpoint : string) (data : option json) (m : model)
  (t t1 t2 : trace) (api_url : string) (api_key : json)
  (hs : list (string * json)) (req : request) (resp : response) :
  tool_spec c = Some (method, endpoint, data, m) ->
  get_activecampaign_config w t = (Return (api_url, api_key), t1) ->
  get_headers w t1 = (Return hs, t2) ->
  api_request method (rstrip_slash api_url ++ endpoint) hs data = Some req ->
  activecampaign w t2 req = Responds resp ->
  400 <= status_code resp < 600 ->
  make_request w method endpoint data t =
  (Return (JObj [("error", JStr (error_message resp));
                 ("status_code", JNum (status_code resp))]),
   (t2 ++ [ApiCall req])%list)
  /\ invoke w c t =
     (Return (error_envelope m (error_message resp)),
      (t2 ++ [ApiCall req])%list).
Proof.
  intros Hc Hcfg Hhs Hreq Hresp Hs.
  assert (Hm : make_request w method endpoint data t =
               (Return (JObj [("error", JStr (error_message resp));
                              ("status_code", JNum (status_code resp))]),
                (t2 ++ [ApiCall req])%list)).
  { rewrite make_request_eq, Hcfg, Hhs, Hreq, Hresp.
    unfold executed, decoded.
    rewrite (raise_for_status_error resp Hs). reflexivity. }
  split; [exact Hm|].
  rewrite (invoke_entity w c t Hc), wrapped_result, Hm. cbn [fst snd].
  rewrite (construct_error_value c (error_message resp)
             (JNum (status_code resp)) Hc).
  reflexivity.
Qed.

Lemma api_error_status_envelope_witness :
  let msg :=
    "404 Client Error: Not Found for url: https://acme.api-us1.com/api/3/deals/7"
  in
  let calls :=
    [BrokerCall (nango_request sample_world);
     BrokerCall (nango_request sample_world);
     ApiCall (mkRequest "GET" "https://acme.api-us1.com/api/3/deals/7"
                sample_api_headers [] None (Some 30))] in
  make_request (answering_world not_found) "GET" "/api/3/deals/7" None [] =
  (Return (JObj [("error", JStr msg); ("status_code", JNum 404)]), calls)
  /\ invoke (answering_world not_found) (Call_get_deal "7") [] =
     (Return (JObj [("deal", JNull); ("deals", JNull); ("error", JStr msg)]),
      calls).
Proof.
  refine (@api_error_status_envelope (answering_world not_found)
            (Call_get_deal "7") "GET" "/api/3/deals/7" None DealResponse
            [] [BrokerCall (nango_request sample_world)]
            [BrokerCall (nango_request sample_world);
             BrokerCall (nango_request sample_world)]
            "https://acme.api-us1.com" (JStr "k-123") sample_api_headers
            (mkRequest "GET" "https://acme.api-us1.com/api/3/deals/7"
               sample_api_headers [] None (Some 30))
            not_found eq_refl eq_refl eq_refl eq_refl eq_refl _).
  cbn. split; [discriminate|reflexivity].
Defined.

(** C4 as stated fails for the statuses outside 2xx that [raise_for_status]
    lets pass: a 300 answer with a JSON body is returned as a success, and a
    304 answer without one yields an error value whose [status_code] is
    [None], not the status. *)
Lemma redirect_status_not_reported :
  make_request
    (answering_world
       (mkResponse 300 "Multiple Choices"
          "https://acme.api-us1.com/api/3/deals" (inr sample_deals)))
    "GET" "/api/3/deals" None [] =
  (Return sample_deals,
   [BrokerCall (nango_request sample_world);
    BrokerCall (nango_request sample_world);
    ApiCall (mkRequest "GET" "https://acme.api-us1.com/api/3/deals"
               sample_api_headers [] None (Some 30))])
  /\ fst (make_request
            (answering_world
               (mkResponse 304 "Not Modified"
                  "https://acme.api-us1.com/api/3/deals"
                  (inl "Expecting value: line 1 column 1 (char 0)")))
            "GET" "/api/3/deals" None []) =
     Return (JObj [("error",
                    JStr "Expecting value: line 1 column 1 (char 0)");
                   ("status_code", JNull)]).
Proof. split; reflexivity. Qed.

(** ** What the executor sends *)

Lemma api_request_shape (method base : string) (hs : list (string * json))
  (data : option json) (r : request) :
  api_request method base hs data = Some r ->
  verb r = upper method /\ url r = base /\ headers r = hs
  /\ timeout r = Some 30
  /\ json_body r =
     (if (upper method =? "POST")%string || (upper method =? "PUT")%string
      then data else None).
Proof.
  unfold api_request.
  destruct (upper method =? "GET")%string eqn:Hg.
  { apply String.eqb_eq in Hg. rewrite Hg. intros H; inversion H; subst.
    cbn. auto. }
  destruct (upper method =? "POST")%string eqn:Hp.
  { apply String.eqb_eq in Hp. rewrite Hp. intros H; inversion H; subst.
    cbn. auto. }
  destruct (upper method =? "PUT")%string eqn:Hu.
  { apply String.eqb_eq in Hu. rewrite Hu. intros H; inversion H; subst.
    cbn. auto. }
  destruct (upper method =? "DELETE")%string eqn:Hd; [|discriminate].
  apply String.eqb_eq in Hd. rewrite Hd. intros H; inversion H; subst.
  cbn. auto.
Qed.

(** Every call of the target API that a run of [make_request] adds to the log
    is the one its verb dispatch builds. *)
Lemma make_request_api_event (w : World) (method endpoint : string)
  (data : option json) (t : trace) (r : request) :
  In (ApiCall r) (snd (make_request w method endpoint data t)) ->
  In (ApiCall r) t
  \/ exists api_url api_key,
       api_request method (rstrip_slash api_url ++ endpoint)
         (api_headers api_key) data = Some r.
Proof.
  destruct (make_request_calls w method endpoint data t) as (l & -> & Hl).
  intros H. apply in_app_or in H. destruct H as [H|H]; [left; exact H|].
  right. destruct Hl; cbn in H;
    repeat match goal with
           | H : _ \/ _ |- _ => destruct H as [H|H]
           | H : BrokerCall _ = ApiCall _ |- _ => discriminate H
           | H : False |- _ => destruct H
           end.
  inversion H; subst. eauto.
Qed.

(** ** Partial updates *)

Lemma supplied_fields_values (name subject fromname fromemail : option string)
  (k : string) (v : json) :
  In (k, v) (supplied_fields name subject fromname fromemail) ->
  v <> JNull /\ In k ["name"; "subject"; "fromname"; "fromemail"].
Proof.
  destruct name, subject, fromname, fromemail; cbn; intros H;
    repeat match goal with
           | H : _ \/ _ |- _ => destruct H as [H|H]
           | H : False |- _ => destruct H
           | H : (_, _) = (_, _) |- _ => inversion H; subst; clear H
           end;
    (split; [discriminate|tauto]).
Qed.

(** C5: the body [update_message] hands to the executor is the dictionary
    whose ["message"] entry holds the supplied parameters and nothing else:
    each of the four keys is bound to its argument when one was given and is
    absent otherwise, no value is [None], and every call of the target API
    the tool makes is a PUT carrying that body.  With only
    [subject="Hi"] the call made is the PUT of [{"message": {"subject": "Hi"}}]. *)
Theorem update_message_body (w : World) (message_id : string)
  (name subject fromname fromemail : option string) (t : trace) :
  let message := supplied_fields name subject fromname fromemail in
  let sent := JObj [("message", JObj message)] in
  update_message w message_id name subject fromname fromemail t =
  (result <- make_request w "PUT" ("/api/3/messages/" ++ message_id)
               (Some sent);;
   lift (construct MessageResponse result)) t
  /\ (forall r,
        In (ApiCall r)
          (snd (update_message w message_id name subject fromname
                  fromemail t)) ->
        In (ApiCall r) t \/ (verb r = "PUT" /\ json_body r = Some sent))
  /\ dict_get message "name" = option_map JStr name
  /\ dict_get message "subject" = option_map JStr subject
  /\ dict_get message "fromname" = option_map JStr fromname
  /\ dict_get message "fromemail" = option_map JStr fromemail
  /\ (forall k v,
        In (k, v) message ->
        v <> JNull /\ In k ["name"; "subject"; "fromname"; "fromemail"])
  /\ snd (update_message sample_world "42" None (Some "Hi") None None []) =
     [BrokerCall (nango_request sample_world);
      BrokerCall (nango_request sample_world);
      ApiCall (mkRequest "PUT" "https://acme.api-us1.com/api/3/messages/42"
                 sample_api_headers []
                 (Some (JObj [("message", JObj [("subject", JStr "Hi")])]))
                 (Some 30))].
Proof.
  intros message sent.
  split; [apply update_message_eq|].
  split.
  { intros r. rewrite update_message_eq, wrapped_result. cbn [snd].
    intros H. apply make_request_api_event in H.
    destruct H as [H|(u & k & H)]; [left; exact H|right].
    apply api_request_shape in H. cbn in H. tauto. }
  repeat split;
    try (subst message; destruct name, subject, fromname, fromemail;
         reflexivity);
    apply (supplied_fields_values name subject fromname fromemail k v H).
Qed.

(** C9: with the four optional parameters omitted, and whenever the
    configuration resolves for the base URL and for the headers,
    [update_message] still sends its PUT, with the body [{"message": {}}]. *)
Theorem update_message_without_fields (w : World) (message_id : string)
  (t t1 t2 : trace) (api_url : string) (api_key : json)
  (hs : list (string * json)) :
  get_activecampaign_config w t = (Return (api_url, api_key), t1) ->
  get_headers w t1 = (Return hs, t2) ->
  snd (update_message w message_id None None None None t) =
  (t2 ++ [ApiCall (mkRequest "PUT"
                     (rstrip_slash api_url ++ "/api/3/messages/" ++ message_id)
                     hs [] (Some (JObj [("message", JObj [])]))
                     (Some 30))])%list.
Proof.
  intros Hcfg Hhs.
  rewrite update_message_eq, wrapped_result. cbn [snd].
  rewrite make_request_eq, Hcfg, Hhs. reflexivity.
Qed.

Lemma update_message_without_fields_witness :
  snd (update_message sample_world "42" None None None None []) =
  [BrokerCall (nango_request sample_world);
   BrokerCall (nango_request sample_world);
   ApiCall (mkRequest "PUT" "https://acme.api-us1.com/api/3/messages/42"
              sample_api_headers [] (Some (JObj [("message", JObj [])]))
              (Some 30))].
Proof.
  exact (@update_message_without_fields sample_world "42" []
           [BrokerCall (nango_request sample_world)]
           [BrokerCall (nango_request sample_world);
            BrokerCall (nango_request sample_world)]
           "https://acme.api-us1.com" (JStr "k-123") sample_api_headers
           eq_refl eq_refl).
Defined.

(** ** Arguments that are not used *)

(** C8: [list_custom_field_values] does not read [field_id]: in the same
    environment and after the same history, two calls with different
    arguments run identically, log and envelope included, and any call of
    the target API they make is a GET of [/api/3/fieldValues] without body. *)
Theorem list_custom_field_values_ignores_field_id (w : World)
  (field_id field_id' : string) (t : trace) :
  list_custom_field_values w field_id t =
  list_custom_field_values w field_id' t
  /\ forall r,
       In (ApiCall r) (snd (list_custom_field_values w field_id t)) ->
       In (ApiCall r) t
       \/ (verb r = "GET" /\ json_body r = None
           /\ exists api_url,
                url r = rstrip_slash api_url ++ "/api/3/fieldValues").
Proof.
  split; [reflexivity|].
  intros r. unfold list_custom_field_values.
  rewrite wrapped_result. cbn [snd].
  intros H. apply make_request_api_event in H.
  destruct H as [H|(u & k & H)]; [left; exact H|right].
  apply api_request_shape in H. cbn in H.
  destruct H as (Hv & Hu & _ & _ & Hb). eauto.
Qed.

(** ** The health check *)

(** C6, as the program behaves: let the probe of the broker return
    [credentials] and the executor request that follows return [result].
    When [result] is a dictionary with an ["error"] entry, be it the error
    value of the executor or a body of the target API that holds that key,
    [health_check] returns the status ["error"] with that entry as message.
    When ["error" in result] is false and the broker answered the probe with
    an object whose [connection_config] is an object or is absent,
    [health_check] returns the status ["ok"] with the [connection_id], the
    [hostname] and the [provider] of that broker answer, [None] for those it
    lacks. *)
Theorem health_check_reports (w : World) (t t1 t2 : trace)
  (credentials answer : json) :
  get_connection_credentials w t = (Return credentials, t1) ->
  make_request w "GET" "/api/3/users" None t1 = (Return answer, t2) ->
  (forall items message,
      answer = JObj items ->
      dict_get items "error" = Some message ->
      health_check w t = (Return (error_status message), t2))
  /\ (forall fields config,
        py_in "error" answer = Return false ->
        credentials = JObj fields ->
        sub_object fields "connection_config" = Some config ->
        health_check w t =
        (Return
           (JObj [("status", JStr "ok");
                  ("message", JStr "API connection successful via Nango");
                  ("connection_id", or_null (dict_get fields "connection_id"));
                  ("hostname", or_null (dict_get config "hostname"));
                  ("provider", or_null (dict_get fields "provider"))]),
         t2)).
Proof.
  intros Hp Hr. split.
  - intros items message -> He.
    rewrite health_check_eq, Hp, Hr.
    unfold health_report, py_in, py_getitem, dict_has. rewrite He.
    reflexivity.
  - intros fields config Hin -> Hc.
    rewrite health_check_eq, Hp, Hr.
    unfold health_report. rewrite Hin. unfold py_get.
    unfold sub_object in Hc.
    destruct (dict_get fields "connection_config") as [[| | | |l|c]|];
      inversion Hc; subst config;
      destruct (dict_get fields "connection_id");
      try destruct (dict_get c "hostname");
      destruct (dict_get fields "provider"); reflexivity.
Qed.

Lemma health_check_reports_witness :
  health_check sample_world [] =
  (Return
     (JObj [("status", JStr "ok");
            ("message", JStr "API connection successful via Nango");
            ("connection_id", JStr "conn-1");
            ("hostname", JStr "acme.api-us1.com");
            ("provider", JStr "active-campaign")]),
   [BrokerCall (nango_request sample_world);
    BrokerCall (nango_request sample_world);
    BrokerCall (nango_request sample_world);
    ApiCall (mkRequest "GET" "https://acme.api-us1.com/api/3/users"
               sample_api_headers [] None (Some 30))])
  /\ fst (health_check (answering_world not_found) []) =
     Return
       (error_status
          (JStr ("404 Client Error: Not Found for url: "
                 ++ "https://acme.api-us1.com/api/3/deals/7"))).
Proof.
  split.
  - exact (proj2 (@health_check_reports sample_world []
                    [BrokerCall (nango_request sample_world)] _
                    sample_credentials sample_deals eq_refl eq_refl)
             _ _ eq_refl eq_refl eq_refl).
  - exact (f_equal fst
             (proj1 (@health_check_reports (answering_world not_found) []
                       [BrokerCall (nango_request sample_world)] _
                       sample_credentials _ eq_refl eq_refl)
                _ _ eq_refl eq_refl)).
Defined.

(** C6 as stated fails: with a broker and a target API that both answer 200,
    a body of the target API that holds the key ["error"] makes
    [health_check] return the status ["error"], and so does a body that is a
    number. *)
Lemma health_check_error_on_successful_answer :
  health_check
    (answering_world (ok_response (JObj [("users", JArr []);
                                         ("error", JNull)]))) [] =
  (Return (error_status JNull),
   [BrokerCall (nango_request sample_world);
    BrokerCall (nango_request sample_world);
    BrokerCall (nango_request sample_world);
    ApiCall (mkRequest "GET" "https://acme.api-us1.com/api/3/users"
               sample_api_headers [] None (Some 30))])
  /\ fst (health_check (answering_world (ok_response (JNum 5))) []) =
     Return (error_status (JStr "argument of type 'int' is not iterable")).
Proof. split; reflexivity. Qed.

(** ** Incomplete broker answers *)

Lemma extract_config_incomplete (credentials : json) :
  lookup2 credentials "credentials" "apiKey" = None
  \/ lookup2 credentials "connection_config" "hostname" = None ->
  exists e, extract_config credentials = Raise e.
Proof.
  unfold lookup2, extract_config, py_get.
  intros [H|H]; destruct credentials; try (eexists; reflexivity);
    repeat (break_match; try discriminate; try congruence;
            try (eexists; reflexivity)).
Qed.

(** C7: when the body of the broker's answer lacks [credentials.apiKey] or
    [connection_config.hostname], resolving the configuration raises the
    [ValueError] of [get_activecampaign_config], and so does the executor,
    and so does every entity tool, right after that one broker call: the log
    holds no call of the target API. *)
Theorem incomplete_credentials_no_api_call (w : World) (t : trace)
  (resp : response) (credentials : json) :
  env_ready w = true ->
  nango w t (nango_request w) = Responds resp ->
  body resp = inr credentials ->
  lookup2 credentials "credentials" "apiKey" = None
  \/ lookup2 credentials "connection_config" "hostname" = None ->
  exists e,
    let failed : trace := (t ++ [BrokerCall (nango_request w)])%list in
    get_activecampaign_config w t = (Raise (config_failure e), failed)
    /\ (forall method endpoint data,
          make_request w method endpoint data t =
          (Raise (config_failure e), failed))
    /\ (forall c, is_entity c = true ->
                  invoke w c t = (Raise (config_failure e), failed))
    /\ api_calls failed = api_calls t.
Proof.
  intros He Hn Hb Hl.
  assert (Hcfg : exists e,
             get_activecampaign_config w t =
             (Raise (config_failure e),
              (t ++ [BrokerCall (nango_request w)])%list)).
  { rewrite get_activecampaign_config_eq, get_connection_credentials_eq.
    rewrite He, Hn. unfold decoded, response_json. rewrite Hb.
    destruct (raise_for_status resp); [|eauto].
    destruct (extract_config_incomplete credentials Hl) as (e & ->). eauto. }
  destruct Hcfg as (e & Hcfg). exists e. cbn zeta.
  split; [exact Hcfg|]. split; [|split].
  - intros method endpoint data.
    apply make_request_config_error. exact Hcfg.
  - intros c Hc. unfold is_entity in Hc.
    destruct (tool_spec c) as [[[[method endpoint] data] m]|] eqn:Hs;
      [|discriminate Hc].
    rewrite (invoke_entity w c t Hs), wrapped_result.
    rewrite (make_request_config_error w method endpoint data t Hcfg).
    reflexivity.
  - unfold api_calls. rewrite filter_app, length_app. cbn. lia.
Qed.

Lemma incomplete_credentials_no_api_call_witness :
  exists e,
    get_activecampaign_config keyless_world [] =
    (Raise (config_failure e), [BrokerCall (nango_request keyless_world)])
    /\ make_request keyless_world "GET" "/api/3/deals/7" None [] =
       (Raise (config_failure e), [BrokerCall (nango_request keyless_world)])
    /\ invoke keyless_world (Call_get_deal "7") [] =
       (Raise (config_failure e), [BrokerCall (nango_request keyless_world)]).
Proof.
  destruct (@incomplete_credentials_no_api_call keyless_world []
              (ok_response keyless_credentials) keyless_credentials
              eq_refl eq_refl eq_refl (or_introl eq_refl))
    as (e & H1 & H2 & H3 & _).
  exists e. split; [exact H1|]. split; [apply H2|].
  exact (H3 (Call_get_deal "7") eq_refl).
Defined.

(** ** The diagnostic tools return *)

Lemma py_get_object (d : list (string * json)) (k : string)
  (default : json) :
  py_get (JObj d) k default =
  Return (match dict_get d k with Some x => x | None => default end).
Proof.
  unfold py_get. destruct (dict_get d k); reflexivity.
Qed.

Lemma get_nango_connection_info_eq (w : World) (t : trace) :
  get_nango_connection_info w t =
  match get_connection_credentials w t with
  | (Raise e, t1) => (caught (Raise e), t1)
  | (Return credentials, t1) => (caught (connection_report credentials), t1)
  end.
Proof.
  unfold get_nango_connection_info, try_except, bind at 1.
  destruct (get_connection_credentials w t) as [[c|e] t1]; [|reflexivity].
  unfold connection_report, caught, error_status.
  cbv beta iota delta [bind lift ret].
  repeat (break_match; try reflexivity; try congruence).
Qed.

Lemma health_report_status (credentials answer : json) :
  exists d,
    caught (health_report credentials answer) = Return (JObj d)
    /\ dict_get d "status" =
       Some (JStr (if usable_probe credentials && answer_is_clean answer
                   then "ok" else "error"))
    /\ (usable_probe credentials && answer_is_clean answer = false ->
        dict_has d "message" = true).
Proof.
  unfold health_report, answer_is_clean.
  destruct (py_in "error" answer) as [[|]|e].
  - rewrite andb_false_r.
    destruct (py_getitem answer "error");
      eexists; (split; [reflexivity|]); cbn; auto.
  - rewrite andb_true_r.
    destruct credentials as [| | | |l|fields];
      try (eexists; (split; [reflexivity|]); cbn; auto; fail).
    rewrite !py_get_object. unfold usable_probe, sub_object.
    destruct (dict_get fields "connection_config") as [[| | | |l|cc]|];
      try rewrite !py_get_object;
      eexists; (split; [reflexivity|]); cbn; split;
      try reflexivity; intros H; try reflexivity; discriminate H.
  - rewrite andb_false_r.
    eexists. split; [reflexivity|]. cbn. auto.
Qed.

Lemma connection_report_status (credentials : json) :
  exists d,
    caught (connection_report credentials) = Return (JObj d)
    /\ dict_get d "status" =
       Some (JStr (if reportable credentials then "success" else "error"))
    /\ (reportable credentials = false -> dict_has d "message" = true).
Proof.
  unfold connection_report.
  destruct credentials as [| | | |l|fields];
    try (eexists; (split; [reflexivity|]); cbn; auto; fail).
  rewrite !py_get_object. unfold reportable, sub_object.
  destruct (dict_get fields "connection_config") as [[| | | |l|cc]|];
    try rewrite !py_get_object;
    try (eexists; (split; [reflexivity|]); cbn; auto; fail);
    destruct (dict_get fields "credentials") as [[| | | |l'|c]|];
    try rewrite !py_get_object;
    eexists; (split; [reflexivity|]); cbn; split;
    try reflexivity; intros H; try reflexivity; discriminate H.
Qed.

(** C10: whatever the broker and the target API do, an exception included,
    [health_check] and [get_nango_connection_info] return a dictionary with
    a ["status"].  For [health_check] it is ["ok"] exactly when the probe
    returned a usable answer and the executor request returned one without
    ["error"]; for [get_nango_connection_info] it is ["success"] exactly
    when the broker call returned an answer it can report; in every other
    run it is ["error"] and the dictionary has a ["message"], which is the
    text of the exception whenever the broker call or the executor request
    raised one. *)
Theorem diagnostics_never_raise (w : World) (t : trace) :
  (exists d t',
      health_check w t = (Return (JObj d), t')
      /\ dict_get d "status" =
         Some (JStr (if health_check_succeeds w t then "ok" else "error"))
      /\ (health_check_succeeds w t = false -> dict_has d "message" = true))
  /\ (exists d t',
        get_nango_connection_info w t = (Return (JObj d), t')
        /\ dict_get d "status" =
           Some (JStr (if connection_info_succeeds w t
                       then "success" else "error"))
        /\ (connection_info_succeeds w t = false ->
            dict_has d "message" = true))
  /\ (forall e t1,
        get_connection_credentials w t = (Raise e, t1) ->
        health_check w t = (Return (error_status (JStr (exn_str e))), t1)
        /\ get_nango_connection_info w t =
           (Return (error_status (JStr (exn_str e))), t1))
  /\ (forall credentials t1 e t2,
        get_connection_credentials w t = (Return credentials, t1) ->
        make_request w "GET" "/api/3/users" None t1 = (Raise e, t2) ->
        health_check w t = (Return (error_status (JStr (exn_str e))), t2)).
Proof.
  split; [|split; [|split]].
  - unfold health_check_succeeds. rewrite health_check_eq.
    destruct (get_connection_credentials w t) as [[c|e] t1].
    + destruct (make_request w "GET" "/api/3/users" None t1)
        as [[answer|e] t2].
      * destruct (health_report_status c answer) as (d & Hd & Hs & Hm).
        exists d, t2. rewrite Hd. auto.
      * rewrite andb_false_r.
        eexists _, _. split; [reflexivity|]. cbn. auto.
    + eexists _, _. split; [reflexivity|]. cbn. auto.
  - unfold connection_info_succeeds. rewrite get_nango_connection_info_eq.
    destruct (get_connection_credentials w t) as [[c|e] t1].
    + destruct (connection_report_status c) as (d & Hd & Hs & Hm).
      exists d, t1. rewrite Hd. auto.
    + eexists _, _. split; [reflexivity|]. cbn. auto.
  - intros e t1 H. split.
    + rewrite health_check_eq, H. reflexivity.
    + rewrite get_nango_connection_info_eq, H. reflexivity.
  - intros credentials t1 e t2 H1 H2.
    rewrite health_check_eq, H1, H2. reflexivity.
Qed.

(** * Further properties of the program *)

(** ** The credential resolver *)

Lemma env_ready_false (w : World) (var : string) :
  In var required_nango_vars ->
  env_truthy (environ w var) = false ->
  env_ready w = false.
Proof.
  unfold required_nango_vars, env_ready. cbn [In forallb].
  intros [<-|[<-|[<-|[<-|[]]]]] ->; cbn [andb];
    rewrite ?andb_false_r; reflexivity.
Qed.

(** X1: when one of the four variables is unset or empty, no request is
    sent: [get_connection_credentials] raises its [ValueError] with the log
    untouched, and the resolver and the executor fail with the wrapped
    message, again without any call. *)
Theorem missing_variable_no_network (w : World) (var : string) (t : trace) :
  In var required_nango_vars ->
  env_truthy (environ w var) = false ->
  get_connection_credentials w t =
  (Raise (ValueError "Missing required Nango environment variables"), t)
  /\ get_activecampaign_config w t =
     (Raise (ValueError
               ("Failed to get ActiveCampaign config from Nango: "
                ++ "Missing required Nango environment variables")), t)
  /\ forall method endpoint data,
       make_request w method endpoint data t =
       (Raise (ValueError
                 ("Failed to get ActiveCampaign config from Nango: "
                  ++ "Missing required Nango environment variables")), t).
Proof.
  intros Hin Hv. pose proof (@env_ready_false w var Hin Hv) as Hr.
  assert (Hc : get_connection_credentials w t =
               (Raise (ValueError
                         "Missing required Nango environment variables"), t)).
  { rewrite get_connection_credentials_eq, Hr. reflexivity. }
  assert (Hg : get_activecampaign_config w t =
               (Raise (ValueError
                         ("Failed to get ActiveCampaign config from Nango: "
                          ++ "Missing required Nango environment variables")),
                t)).
  { rewrite get_activecampaign_config_eq, Hc. reflexivity. }
  split; [exact Hc|]. split; [exact Hg|].
  intros method endpoint data.
  apply make_request_config_error. exact Hg.
Qed.

Lemma missing_variable_no_network_witness :
  get_connection_credentials blank_secret_world [] =
  (Raise (ValueError "Missing required Nango environment variables"), [])
  /\ make_request blank_secret_world "GET" "/api/3/deals" None [] =
     (Raise (ValueError
               ("Failed to get ActiveCampaign config from Nango: "
                ++ "Missing required Nango environment variables")), []).
Proof.
  destruct (@missing_variable_no_network blank_secret_world
              "NANGO_SECRET_KEY" []
              (or_intror (or_intror (or_intror (or_introl eq_refl))))
              eq_refl) as (H1 & _ & H3).
  split; [exact H1|apply H3].
Defined.

(** X2: a 4xx or 5xx answer of the broker is raised, not returned as data:
    [get_connection_credentials] raises the HTTP error with its status, the
    executor raises the [ValueError] that wraps its message, whatever the
    verb, and [health_check] reports the HTTP error as its message; nothing
    but the one broker call has been made. *)
Theorem broker_error_status_raises (w : World) (t : trace) (resp : response) :
  env_ready w = true ->
  nango w t (nango_request w) = Responds resp ->
  400 <= status_code resp < 600 ->
  let failed : trace := (t ++ [BrokerCall (nango_request w)])%list in
  get_connection_credentials w t =
  (Raise (RequestException (error_message resp) (Some (status_code resp))),
   failed)
  /\ (forall method endpoint data,
        make_request w method endpoint data t =
        (Raise (ValueError
                  ("Failed to get ActiveCampaign config from Nango: "
                   ++ error_message resp)), failed))
  /\ health_check w t =
     (Return (error_status (JStr (error_message resp))), failed).
Proof.
  intros He Hn Hs failed.
  assert (Hc : get_connection_credentials w t =
               (Raise (RequestException (error_message resp)
                         (Some (status_code resp))), failed)).
  { rewrite get_connection_credentials_eq, He, Hn. unfold decoded.
    rewrite (raise_for_status_error resp Hs). reflexivity. }
  split; [exact Hc|]. split.
  - intros method endpoint data. apply make_request_config_error.
    rewrite get_activecampaign_config_eq, Hc. reflexivity.
  - rewrite health_check_eq, Hc. reflexivity.
Qed.

Lemma broker_error_status_raises_witness :
  let msg := "401 Client Error: Unauthorized for url: "
             ++ "https://api.nango.dev/connection/conn-1" in
  get_connection_credentials refusing_world [] =
  (Raise (RequestException msg (Some 401)),
   [BrokerCall (nango_request refusing_world)])
  /\ (forall method endpoint data,
        make_request refusing_world method endpoint data [] =
        (Raise (ValueError
                  ("Failed to get ActiveCampaign config from Nango: " ++ msg)),
         [BrokerCall (nango_request refusing_world)]))
  /\ health_check refusing_world [] =
     (Return (error_status (JStr msg)),
      [BrokerCall (nango_request refusing_world)]).
Proof.
  refine (@broker_error_status_raises refusing_world [] unauthorized
            eq_refl eq_refl _).
  cbn. split; [discriminate|reflexivity].
Defined.

Lemma raise_for_status_passes (r : response) :
  raise_for_status r = Return tt -> ~ (400 <= status_code r < 600).
Proof.
  unfold raise_for_status. intros H Hs.
  destruct (Z.leb_spec 400 (status_code r)); [|lia].
  destruct (Z.ltb_spec (status_code r) 500); [discriminate H|].
  destruct (Z.leb_spec 500 (status_code r)); [|lia].
  destruct (Z.ltb_spec (status_code r) 600); [discriminate H|lia].
Qed.

Lemma extract_config_complete (credentials : json) (api_url : string)
  (api_key : json) :
  extract_config credentials = Return (api_url, api_key) ->
  truthy api_key = true
  /\ lookup2 credentials "credentials" "apiKey" = Some api_key
  /\ exists hostname,
       lookup2 credentials "connection_config" "hostname" = Some hostname
       /\ truthy hostname = true
       /\ api_url = "https://" ++ py_str hostname.
Proof.
  unfold extract_config, lookup2, py_get.
  destruct credentials as [| | | |l|d]; try discriminate.
  destruct (dict_get d "credentials") as [[| | | |l|c]|]; try discriminate.
  destruct (dict_get c "apiKey") as [k|]; [|discriminate].
  destruct (truthy k) eqn:Hk; [|discriminate]. cbn [negb].
  destruct (dict_get d "connection_config") as [[| | | |l|cc]|];
    try discriminate.
  destruct (dict_get cc "hostname") as [h|]; [|discriminate].
  destruct (truthy h) eqn:Hh; [|discriminate]. cbn [negb].
  intros H. inversion H; subst. eauto 6.
Qed.

(** X3: the resolver returns only what the broker really supplied.  When
    [get_activecampaign_config] returns, the environment was complete, the
    broker was called exactly once, its answer had a status outside 400..599
    and a JSON body holding a non-empty [credentials.apiKey], which is the key
    returned, and a non-empty [connection_config.hostname], from which the
    URL is built with the [https] scheme. *)
Theorem resolved_config_comes_from_broker (w : World) (t t' : trace)
  (api_url : string) (api_key : json) :
  get_activecampaign_config w t = (Return (api_url, api_key), t') ->
  env_ready w = true
  /\ t' = (t ++ [BrokerCall (nango_request w)])%list
  /\ truthy api_key = true
  /\ exists resp credentials hostname,
       nango w t (nango_request w) = Responds resp
       /\ ~ (400 <= status_code resp < 600)
       /\ body resp = inr credentials
       /\ lookup2 credentials "credentials" "apiKey" = Some api_key
       /\ lookup2 credentials "connection_config" "hostname" = Some hostname
       /\ truthy hostname = true
       /\ api_url = "https://" ++ py_str hostname.
Proof.
  rewrite get_activecampaign_config_eq, get_connection_credentials_eq.
  destruct (env_ready w); [|discriminate].
  unfold decoded.
  destruct (nango w t (nango_request w)) as [e|resp]; [discriminate|].
  destruct (raise_for_status resp) as [[]|e] eqn:Hs; [|discriminate].
  unfold response_json.
  destruct (body resp) as [msg|credentials] eqn:Hb; [discriminate|].
  destruct (extract_config credentials) as [[u k]|e] eqn:Hx; [|discriminate].
  intros H. inversion H; subst.
  destruct (extract_config_complete credentials Hx)
    as (Hk & Hl & hostname & Hh & Hth & Hu).
  split; [reflexivity|]. split; [reflexivity|]. split; [exact Hk|].
  exists resp, credentials, hostname.
  split; [reflexivity|]. split; [apply raise_for_status_passes; exact Hs|].
  auto 6.
Qed.

Lemma resolved_config_comes_from_broker_witness :
  env_ready sample_world = true
  /\ [BrokerCall (nango_request sample_world)] =
     ([] ++ [BrokerCall (nango_request sample_world)])%list
  /\ truthy (JStr "k-123") = true
  /\ exists resp credentials hostname,
       nango sample_world [] (nango_request sample_world) = Responds resp
       /\ ~ (400 <= status_code resp < 600)
       /\ body resp = inr credentials
       /\ lookup2 credentials "credentials" "apiKey" = Some (JStr "k-123")
       /\ lookup2 credentials "connection_config" "hostname" = Some hostname
       /\ truthy hostname = true
       /\ "https://acme.api-us1.com" = "https://" ++ py_str hostname.
Proof.
  exact (@resolved_config_comes_from_broker sample_world []
           [BrokerCall (nango_request sample_world)]
           "https://acme.api-us1.com" (JStr "k-123") eq_refl).
Defined.

(** ** The executor *)

Lemma executed_raises (o : outcome) (e : exn) :
  executed o = Raise e ->
  o = Raises e /\ forall msg s, e <> RequestException msg s.
Proof.
  unfold executed, decoded, raise_for_status, response_json.
  destruct o as [e0|r].
  - destruct e0; intros H; inversion H; subst; split;
      try reflexivity; intros msg0 s0; discriminate.
  - repeat (break_match; try discriminate).
Qed.

(** X4: the only exceptions that leave [make_request] are a [ValueError] (a
    configuration that did not resolve, or an unsupported verb) and an
    exception that the call of the target API itself raised and that is not
    a [RequestException]; a [RequestException] never leaves it. *)
Theorem executor_raises_only (w : World) (method endpoint : string)
  (data : option json) (t t' : trace) (e : exn) :
  make_request w method endpoint data t = (Raise e, t') ->
  (forall msg s, e <> RequestException msg s)
  /\ ((exists msg, e = ValueError msg)
      \/ (exists t2 r, activecampaign w t2 r = Raises e)).
Proof.
  rewrite make_request_eq.
  destruct (get_activecampaign_config_cases w t)
    as [(e0 & _ & ->)|[(e0 & _ & ->)|(u & k & _ & ->)]].
  - intros H. inversion H; subst.
    split; [intros msg s; discriminate|left; eexists; reflexivity].
  - intros H. inversion H; subst.
    split; [intros msg s; discriminate|left; eexists; reflexivity].
  - rewrite get_headers_eq.
    destruct (get_activecampaign_config_cases
                w (t ++ [BrokerCall (nango_request w)])%list)
      as [(e0 & _ & ->)|[(e0 & _ & ->)|(u' & k' & _ & ->)]].
    + intros H. inversion H; subst.
      split; [intros msg s; discriminate|left; eexists; reflexivity].
    + intros H. inversion H; subst.
      split; [intros msg s; discriminate|left; eexists; reflexivity].
    + destruct (api_request method (rstrip_slash u ++ endpoint)
                  (api_headers k') data) as [r|].
      * intros H. inversion H as [[Hx Ht]].
        apply executed_raises in Hx. destruct Hx as [Ho Hn].
        split; [exact Hn|right; eauto].
      * intros H. inversion H; subst.
        split; [intros msg s; discriminate|left; eexists; reflexivity].
Qed.

Lemma executor_raises_only_witness :
  (forall msg s,
      ValueError "Unsupported HTTP method: PATCH" <> RequestException msg s)
  /\ ((exists msg, ValueError "Unsupported HTTP method: PATCH" = ValueError msg)
      \/ (exists t2 r,
             activecampaign sample_world t2 r =
             Raises (ValueError "Unsupported HTTP method: PATCH"))).
Proof.
  exact (@executor_raises_only sample_world "PATCH" "/api/3/deals" None []
           [BrokerCall (nango_request sample_world);
            BrokerCall (nango_request sample_world)]
           (ValueError "Unsupported HTTP method: PATCH") eq_refl).
Defined.

(** X5: a [RequestException] raised by the call of the target API, such as
    a timeout, is returned as data: the executor returns the dictionary with
    the text of the exception and with the status of the response attached to
    it, [None] when there is none. *)
Theorem transport_failure_is_returned (w : World) (method endpoint : string)
  (data : option json) (t t1 t2 : trace) (api_url : string) (api_key : json)
  (hs : list (string * json)) (req : request) (msg : string)
  (s : option Z) :
  get_activecampaign_config w t = (Return (api_url, api_key), t1) ->
  get_headers w t1 = (Return hs, t2) ->
  api_request method (rstrip_slash api_url ++ endpoint) hs data = Some req ->
  activecampaign w t2 req = Raises (RequestException msg s) ->
  make_request w method endpoint data t =
  (Return (JObj [("error", JStr msg);
                 ("status_code",
                  match s with Some c => JNum c | None => JNull end)]),
   (t2 ++ [ApiCall req])%list).
Proof.
  intros Hcfg Hhs Hreq Ho.
  rewrite make_request_eq, Hcfg, Hhs, Hreq, Ho. reflexivity.
Qed.

Lemma transport_failure_is_returned_witness :
  make_request timing_out_world "GET" "/api/3/deals" None [] =
  (Return (JObj [("error", JStr "Read timed out. (read timeout=30)");
                 ("status_code", JNull)]),
   [BrokerCall (nango_request sample_world);
    BrokerCall (nango_request sample_world);
    ApiCall (mkRequest "GET" "https://acme.api-us1.com/api/3/deals"
               sample_api_headers [] None (Some 30))]).
Proof.
  exact (@transport_failure_is_returned timing_out_world "GET" "/api/3/deals"
           None [] [BrokerCall (nango_request sample_world)]
           [BrokerCall (nango_request sample_world);
            BrokerCall (nango_request sample_world)]
           "https://acme.api-us1.com" (JStr "k-123") sample_api_headers
           (mkRequest "GET" "https://acme.api-us1.com/api/3/deals"
              sample_api_headers [] None (Some 30))
           "Read timed out. (read timeout=30)" None
           eq_refl eq_refl eq_refl eq_refl).
Defined.

Lemma raise_for_status_outside (r : response) :
  ~ (400 <= status_code r < 600) -> raise_for_status r = Return tt.
Proof.
  unfold raise_for_status. intros Hs.
  destruct (Z.leb_spec 400 (status_code r));
    destruct (Z.ltb_spec (status_code r) 500);
    destruct (Z.leb_spec 500 (status_code r));
    destruct (Z.ltb_spec (status_code r) 600);
    cbn [andb]; try reflexivity; exfalso; apply Hs; lia.
Qed.

(** X6: an answer of the target API whose status is outside 400..599 and
    whose body is not JSON, such as a 204 without content, is reported as an
    error: the executor returns the dictionary with the message of the
    decoder and [None] as status. *)
Theorem undecodable_answer_is_an_error (w : World) (method endpoint : string)
  (data : option json) (t t1 t2 : trace) (api_url : string) (api_key : json)
  (hs : list (string * json)) (req : request) (resp : response)
  (msg : string) :
  get_activecampaign_config w t = (Return (api_url, api_key), t1) ->
  get_headers w t1 = (Return hs, t2) ->
  api_request method (rstrip_slash api_url ++ endpoint) hs data = Some req ->
  activecampaign w t2 req = Responds resp ->
  ~ (400 <= status_code resp < 600) ->
  body resp = inl msg ->
  make_request w method endpoint data t =
  (Return (JObj [("error", JStr msg); ("status_code", JNull)]),
   (t2 ++ [ApiCall req])%list).
Proof.
  intros Hcfg Hhs Hreq Ho Hs Hb.
  rewrite make_request_eq, Hcfg, Hhs, Hreq, Ho.
  unfold executed, decoded, response_json.
  rewrite (raise_for_status_outside resp Hs), Hb. reflexivity.
Qed.

Lemma undecodable_answer_is_an_error_witness :
  make_request (answering_world no_content) "DELETE" "/api/3/deals/7" None [] =
  (Return (JObj [("error", JStr "Expecting value: line 1 column 1 (char 0)");
                 ("status_code", JNull)]),
   [BrokerCall (nango_request sample_world);
    BrokerCall (nango_request sample_world);
    ApiCall (mkRequest "DELETE" "https://acme.api-us1.com/api/3/deals/7"
               sample_api_headers [] None (Some 30))]).
Proof.
  refine (@undecodable_answer_is_an_error (answering_world no_content)
            "DELETE" "/api/3/deals/7" None []
            [BrokerCall (nango_request sample_world)]
            [BrokerCall (nango_request sample_world);
             BrokerCall (nango_request sample_world)]
            "https://acme.api-us1.com" (JStr "k-123") sample_api_headers
            (mkRequest "DELETE" "https://acme.api-us1.com/api/3/deals/7"
               sample_api_headers [] None (Some 30))
            no_content "Expecting value: line 1 column 1 (char 0)"
            eq_refl eq_refl eq_refl eq_refl _ eq_refl).
  cbn. intros [H _]. apply H. reflexivity.
Defined.

Lemma rstrip_slash_no_trailing (s p : string) : rstrip_slash s <> p ++ "/".
Proof.
  revert p. induction s as [|c s IH]; intros p; cbn.
  - destruct p; discriminate.
  - destruct ((c =? "/")%char && (rstrip_slash s =? "")%string) eqn:Hc.
    + destruct p; discriminate.
    + destruct p as [|c' p]; cbn.
      * intros H. inversion H as [[H1 H2]]. subst c.
        rewrite H2 in Hc. discriminate Hc.
      * intros H. inversion H as [[H1 H2]]. exact (IH p H2).
Qed.

Lemma api_request_supported (method base : string)
  (hs : list (string * json)) (data : option json) :
  supported method = true ->
  exists r, api_request method base hs data = Some r /\ params r = [].
Proof.
  unfold supported, api_request. cbn [existsb].
  destruct (upper method =? "GET")%string; [eauto|].
  destruct (upper method =? "POST")%string; [eauto|].
  destruct (upper method =? "PUT")%string; [eauto|].
  destruct (upper method =? "DELETE")%string; [eauto|].
  discriminate.
Qed.

(** X7: what the one request of the executor is made of.  With a supported
    verb and two resolutions that succeed, exactly one call of the target API
    follows them.  Its URL is the base URL of the first resolution, stripped
    of every trailing slash, followed by the endpoint; its [Api-Token] is the
    key of the second resolution; it declares JSON both ways, has no query
    parameters and a timeout of 30 seconds; it carries [data] for POST and
    PUT and no body for GET and DELETE. *)
Theorem request_anatomy (w : World) (method endpoint : string)
  (data : option json) (t t1 t2 : trace) (url1 url2 : string)
  (key1 key2 : json) :
  get_activecampaign_config w t = (Return (url1, key1), t1) ->
  get_activecampaign_config w t1 = (Return (url2, key2), t2) ->
  supported method = true ->
  exists r,
    snd (make_request w method endpoint data t) = (t2 ++ [ApiCall r])%list
    /\ verb r = upper method
    /\ url r = rstrip_slash url1 ++ endpoint
    /\ (forall p, rstrip_slash url1 <> p ++ "/")
    /\ headers r = [("Api-Token", key2);
                    ("Content-Type", JStr "application/json");
                    ("Accept", JStr "application/json")]
    /\ params r = []
    /\ timeout r = Some 30
    /\ json_body r =
       (if (upper method =? "POST")%string || (upper method =? "PUT")%string
        then data else None).
Proof.
  intros H1 H2 Hm.
  destruct (api_request_supported method (rstrip_slash url1 ++ endpoint)
              (api_headers key2) data Hm) as (r & Hr & Hp).
  exists r. rewrite make_request_eq, H1, get_headers_eq, H2, Hr. cbn [snd].
  apply api_request_shape in Hr.
  destruct Hr as (Hv & Hu & Hh & Ht & Hb).
  repeat split; try assumption.
  intros p. apply rstrip_slash_no_trailing.
Qed.

Lemma request_anatomy_witness :
  exists r,
    snd (make_request rotating_world "put" "/api/3/messages/42"
           (Some (JObj [("message", JObj [])])) []) =
    ([BrokerCall (nango_request rotating_world);
      BrokerCall (nango_request rotating_world)] ++ [ApiCall r])%list
    /\ verb r = upper "put"
    /\ url r = rstrip_slash "https://acme.api-us1.com" ++ "/api/3/messages/42"
    /\ (forall p, rstrip_slash "https://acme.api-us1.com" <> p ++ "/")
    /\ headers r = [("Api-Token", JStr "k-new");
                    ("Content-Type", JStr "application/json");
                    ("Accept", JStr "application/json")]
    /\ params r = []
    /\ timeout r = Some 30
    /\ json_body r =
       (if (upper "put" =? "POST")%string || (upper "put" =? "PUT")%string
        then Some (JObj [("message", JObj [])]) else None).
Proof.
  exact (@request_anatomy rotating_world "put" "/api/3/messages/42"
           (Some (JObj [("message", JObj [])])) []
           [BrokerCall (nango_request rotating_world)]
           [BrokerCall (nango_request rotating_world);
            BrokerCall (nango_request rotating_world)]
           "https://acme.api-us1.com" "https://acme.api-us1.com"
           (JStr "k-old") (JStr "k-new") eq_refl eq_refl eq_refl).
Defined.

Lemma upper_char_idempotent (c : ascii) :
  upper_char (upper_char c) = upper_char c.
Proof.
  destruct c as [[] [] [] [] [] [] [] []]; reflexivity.
Qed.

Lemma upper_idempotent (s : string) : upper (upper s) = upper s.
Proof.
  induction s as [|c s IH]; cbn; [reflexivity|].
  rewrite upper_char_idempotent, IH. reflexivity.
Qed.

(** X8: supported verbs are matched without regard to case: calling the
    executor with a supported verb in any casing runs exactly as calling it
    with the verb in upper case. *)
Theorem verb_case_is_ignored (w : World) (method endpoint : string)
  (data : option json) (t : trace) :
  supported method = true ->
  make_request w method endpoint data t =
  make_request w (upper method) endpoint data t.
Proof.
  intros Hm. rewrite !make_request_eq.
  destruct (get_activecampaign_config w t) as [[[u k]|e] t1]; [|reflexivity].
  destruct (get_headers w t1) as [[hs|e] t2]; [|reflexivity].
  destruct (api_request_supported method (rstrip_slash u ++ endpoint) hs
              data Hm) as (r & Hr & _).
  assert (Hu : api_request (upper method) (rstrip_slash u ++ endpoint) hs data
               = api_request method (rstrip_slash u ++ endpoint) hs data).
  { unfold api_request. rewrite upper_idempotent. reflexivity. }
  rewrite Hu, Hr. reflexivity.
Qed.

Lemma verb_case_is_ignored_witness :
  make_request sample_world "gEt" "/api/3/deals" None [] =
  make_request sample_world (upper "gEt") "/api/3/deals" None [].
Proof.
  exact (@verb_case_is_ignored sample_world "gEt" "/api/3/deals" None []
           eq_refl).
Defined.

(** ** The entity tools *)

(** X9: every entity tool adds at most one call of the target API to the
    log, and that call has the verb, the endpoint and the body of the tool:
    the URL is a base URL without trailing slash followed by the endpoint,
    with the identifiers of the invocation inserted as they are, and the
    timeout is 30 seconds. *)
Theorem tool_routing (w : World) (c : tool_call) (method endpoint : string)
  (data : option json) (m : model) (t : trace) :
  tool_spec c = Some (method, endpoint, data, m) ->
  exists l,
    snd (invoke w c t) = (t ++ l)%list
    /\ (api_calls l <= 1)%nat
    /\ forall r,
         In (ApiCall r) l ->
         verb r = method
         /\ (exists base, url r = rstrip_slash base ++ endpoint)
         /\ json_body r = data
         /\ timeout r = Some 30.
Proof.
  intros Hc. destruct (entity_calls w c t Hc) as (l & Hl & Hcalls).
  exists l. split; [exact Hl|].
  split; [apply (executor_calls_shape Hcalls)|].
  intros r Hin.
  assert (Hreq : exists api_url api_key,
             api_request method (rstrip_slash api_url ++ endpoint)
               (api_headers api_key) data = Some r).
  { destruct Hcalls; cbn in Hin;
      repeat match goal with
             | H : _ \/ _ |- _ => destruct H as [H|H]
             | H : BrokerCall _ = ApiCall _ |- _ => discriminate H
             | H : False |- _ => destruct H
             end.
    inversion Hin; subst. eauto. }
  destruct Hreq as (u & k & Hreq).
  apply api_request_shape in Hreq.
  destruct Hreq as (Hv & Hu & _ & Ht & Hb).
  destruct c; cbn [tool_spec] in Hc; inversion Hc; subst;
    cbn in Hv, Hb; eauto 6.
Qed.

Lemma tool_routing_witness :
  exists l,
    snd (invoke sample_world (Call_create_an_account_note "9" "called back")
           []) = ([] ++ l)%list
    /\ (api_calls l <= 1)%nat
    /\ forall r,
         In (ApiCall r) l ->
         verb r = "POST"
         /\ (exists base, url r = rstrip_slash base ++ "/api/3/notes")
         /\ json_body r =
            Some (JObj [("note",
                         JObj [("note", JStr "called back");
                               ("relid", JStr "9");
                               ("reltype", JStr "account")])])
         /\ timeout r = Some 30.
Proof.
  exact (@tool_routing sample_world
           (Call_create_an_account_note "9" "called back") _ _ _ _ []
           eq_refl).
Defined.

Lemma validate_model_keys (fs : list (string * ftype)) (raw v : json) :
  validate (TModel fs) raw = Some v ->
  exists items, v = JObj items /\ map fst items = map fst fs.
Proof.
  destruct raw as [| | | |l|d]; cbn [validate]; try discriminate.
  match goal with
  | |- option_map _ ?x = _ -> _ => destruct x as [items|] eqn:E
  end; [|discriminate].
  cbn [option_map]. intros H. inversion H; subst v. clear H.
  exists items. split; [reflexivity|].
  revert items E. induction fs as [|[k ft] fs IH]; intros items E.
  - inversion E. reflexivity.
  - match type of E with
    | match ?a with _ => _ end = _ => destruct a as [x|]
    end; [|discriminate E].
    match type of E with
    | match ?a with _ => _ end = _ => destruct a as [r|] eqn:Er
    end; [|discriminate E].
    inversion E; subst items. cbn [map fst]. f_equal. apply IH. reflexivity.
Qed.

(** X10: whenever an entity tool returns, what it returns is an instance of
    its response model: a dictionary with exactly the declared fields, in the
    declared order, [error] among them. *)
Theorem envelope_has_declared_fields (w : World) (c : tool_call)
  (method endpoint : string) (data : option json) (m : model)
  (t t' : trace) (v : json) :
  tool_spec c = Some (method, endpoint, data, m) ->
  invoke w c t = (Return v, t') ->
  exists items,
    v = JObj items
    /\ map fst items = map fst (model_fields m)
    /\ In "error" (map fst items).
Proof.
  intros Hc. rewrite (invoke_entity w c t Hc), wrapped_result.
  destruct (fst (make_request w method endpoint data t)) as [raw|e];
    [|discriminate].
  unfold construct. destruct raw as [| | | |l|d]; try discriminate.
  destruct (validate (TClass m) (JObj d)) as [x|] eqn:Hv; [|discriminate].
  intros H. inversion H; subst x.
  destruct (validate_model_keys _ _ Hv) as (items & -> & Hk).
  exists items. split; [reflexivity|]. split; [exact Hk|].
  rewrite Hk.
  destruct c; cbn [tool_spec] in Hc; inversion Hc; subst; cbn; tauto.
Qed.

Lemma envelope_has_declared_fields_witness :
  exists items,
    JObj [("deal", JNull);
          ("deals", JArr [JObj [("title", JStr "Deal A"); ("value", JNull);
                                ("currency", JNull); ("status", JNull);
                                ("id", JStr "1")]]);
          ("error", JNull)] = JObj items
    /\ map fst items = map fst (model_fields DealResponse)
    /\ In "error" (map fst items).
Proof.
  exact (@envelope_has_declared_fields sample_world Call_list_deals _ _ _ _
           [] _ _ eq_refl eq_refl).
Defined.

(** X11: when the executor returns something that is not a dictionary (the
    target API answered with a JSON array, string, number or null), the
    entity tool does not return an envelope: building the model raises a
    [TypeError], with the log as the executor left it. *)
Theorem non_object_answer_raises (w : World) (c : tool_call)
  (method endpoint : string) (data : option json) (m : model)
  (t t' : trace) (raw : json) :
  tool_spec c = Some (method, endpoint, data, m) ->
  make_request w method endpoint data t = (Return raw, t') ->
  (forall items, raw <> JObj items) ->
  exists msg, invoke w c t = (Raise (TypeError msg), t').
Proof.
  intros Hc Hm Hraw.
  rewrite (invoke_entity w c t Hc), wrapped_result, Hm. cbn [fst snd].
  unfold construct.
  destruct raw; try (eexists; reflexivity).
  exfalso. exact (Hraw _ eq_refl).
Qed.

Lemma non_object_answer_raises_witness :
  exists msg,
    invoke (answering_world (ok_response (JArr []))) Call_list_deals [] =
    (Raise (TypeError msg),
     [BrokerCall (nango_request sample_world);
      BrokerCall (nango_request sample_world);
      ApiCall (mkRequest "GET" "https://acme.api-us1.com/api/3/deals"
                 sample_api_headers [] None (Some 30))]).
Proof.
  refine (@non_object_answer_raises (answering_world (ok_response (JArr [])))
            Call_list_deals _ _ _ _ [] _ (JArr []) eq_refl eq_refl _).
  intros items. discriminate.
Defined.

(** ** The diagnostic tools *)

Lemma caught_ok (r : result json) (d : list (string * json)) :
  caught r = Return (JObj d) ->
  dict_get d "status" = Some (JStr "ok") ->
  r = Return (JObj d).
Proof.
  destruct r as [v|e]; cbn [caught].
  - intros H _. exact H.
  - unfold error_status. intros H Hs. inversion H; subst d.
    cbn in Hs. discriminate Hs.
Qed.

Lemma caught_pair_ok (r : result json) (t t' : trace)
  (d : list (string * json)) :
  (caught r, t) = (Return (JObj d), t') ->
  dict_get d "status" = Some (JStr "ok") ->
  r = Return (JObj d) /\ t = t'.
Proof.
  intros H Hs. injection H as Hc Ht.
  split; [exact (caught_ok r Hc Hs)|exact Ht].
Qed.

Lemma health_report_ok (credentials answer : json)
  (d : list (string * json)) :
  health_report credentials answer = Return (JObj d) ->
  dict_get d "status" = Some (JStr "ok") ->
  py_in "error" answer = Return false.
Proof.
  unfold health_report, error_status.
  destruct (py_in "error" answer) as [[|]|e]; [|reflexivity|discriminate].
  destruct (py_getitem answer "error"); [|discriminate].
  intros H Hs. inversion H; subst d. cbn in Hs. discriminate Hs.
Qed.

Lemma executed_without_error (o : outcome) (answer : json) :
  executed o = Return answer ->
  py_in "error" answer = Return false ->
  exists resp,
    o = Responds resp
    /\ ~ (400 <= status_code resp < 600)
    /\ body resp = inr answer.
Proof.
  unfold executed, decoded. destruct o as [e|resp].
  - destruct e; try discriminate.
    intros H Hin. inversion H; subst answer. cbn in Hin. discriminate Hin.
  - destruct (raise_for_status resp) as [[]|e] eqn:Hs.
    + unfold response_json. destruct (body resp) as [msg|v] eqn:Hb.
      * intros H Hin. inversion H; subst answer. cbn in Hin.
        discriminate Hin.
      * intros H _. inversion H; subst v.
        exists resp. split; [reflexivity|].
        split; [apply raise_for_status_passes; exact Hs|exact Hb].
    + destruct e; try discriminate.
      intros H Hin. inversion H; subst answer. cbn in Hin. discriminate Hin.
Qed.

(** X12: [health_check] says ["ok"] only after the target API has really
    answered.  When the returned status is ["ok"], the environment was
    complete, the run made three broker calls and then one GET of
    [/api/3/users] without body, and the target API answered that call with
    a status outside 400..599 and a JSON body that holds no ["error"]. *)
Theorem health_check_ok_means_api_answered (w : World) (t t' : trace)
  (d : list (string * json)) :
  health_check w t = (Return (JObj d), t') ->
  dict_get d "status" = Some (JStr "ok") ->
  env_ready w = true
  /\ exists r resp answer,
       t' = (t ++ [BrokerCall (nango_request w); BrokerCall (nango_request w);
                   BrokerCall (nango_request w); ApiCall r])%list
       /\ verb r = "GET" /\ json_body r = None
       /\ (exists base, url r = rstrip_slash base ++ "/api/3/users")
       /\ activecampaign w
            (t ++ [BrokerCall (nango_request w); BrokerCall (nango_request w);
                   BrokerCall (nango_request w)])%list r = Responds resp
       /\ ~ (400 <= status_code resp < 600)
       /\ body resp = inr answer
       /\ py_in "error" answer = Return false.
Proof.
  rewrite health_check_eq, get_connection_credentials_eq.
  destruct (env_ready w) eqn:He.
  2:{ intros H Hs. destruct (caught_pair_ok _ H Hs) as [Hx _].
      discriminate Hx. }
  destruct (decoded (nango w t (nango_request w))) as [c|e].
  2:{ intros H Hs. destruct (caught_pair_ok _ H Hs) as [Hx _].
      discriminate Hx. }
  rewrite make_request_eq.
  destruct (get_activecampaign_config_cases
              w (t ++ [BrokerCall (nango_request w)])%list)
    as [(e & _ & ->)|[(e & _ & ->)|(u & k & _ & ->)]].
  1,2: intros H Hs; destruct (caught_pair_ok _ H Hs) as [Hx _];
       discriminate Hx.
  rewrite get_headers_eq.
  destruct (get_activecampaign_config_cases
              w ((t ++ [BrokerCall (nango_request w)])
                 ++ [BrokerCall (nango_request w)])%list)
    as [(e & _ & ->)|[(e & _ & ->)|(u' & k' & _ & ->)]].
  1,2: intros H Hs; destruct (caught_pair_ok _ H Hs) as [Hx _];
       discriminate Hx.
  cbn [api_request upper upper_char nat_of_ascii String.eqb Ascii.eqb].
  change (api_request "GET" (rstrip_slash u ++ "/api/3/users")
            (api_headers k') None)
    with (Some (mkRequest "GET" (rstrip_slash u ++ "/api/3/users")
                  (api_headers k') [] None (Some 30))).
  rewrite <- !app_assoc. cbn [app].
  set (r := mkRequest "GET" (rstrip_slash u ++ "/api/3/users")
              (api_headers k') [] None (Some 30)).
  set (t3 := (t ++ [BrokerCall (nango_request w);
                    BrokerCall (nango_request w);
                    BrokerCall (nango_request w)])%list).
  destruct (executed (activecampaign w t3 r)) as [answer|e] eqn:Hx.
  2:{ intros H Hs. destruct (caught_pair_ok _ H Hs) as [Hy _].
      discriminate Hy. }
  intros H Hs. destruct (caught_pair_ok _ H Hs) as [Hr Ht].
  pose proof (health_report_ok _ _ Hr Hs) as Hin.
  destruct (executed_without_error _ Hx Hin) as (resp & Ho & Hst & Hb).
  split; [reflexivity|].
  exists r, resp, answer.
  split; [symmetry; exact Ht|].
  split; [reflexivity|]. split; [reflexivity|].
  split; [exists u; reflexivity|].
  auto.
Qed.

Lemma health_check_ok_means_api_answered_witness :
  env_ready sample_world = true
  /\ exists r resp answer,
       [BrokerCall (nango_request sample_world);
        BrokerCall (nango_request sample_world);
        BrokerCall (nango_request sample_world);
        ApiCall (mkRequest "GET" "https://acme.api-us1.com/api/3/users"
                   sample_api_headers [] None (Some 30))] =
       ([] ++ [BrokerCall (nango_request sample_world);
               BrokerCall (nango_request sample_world);
               BrokerCall (nango_request sample_world); ApiCall r])%list
       /\ verb r = "GET" /\ json_body r = None
       /\ (exists base, url r = rstrip_slash base ++ "/api/3/users")
       /\ activecampaign sample_world
            ([] ++ [BrokerCall (nango_request sample_world);
                    BrokerCall (nango_request sample_world);
                    BrokerCall (nango_request sample_world)])%list r =
          Responds resp
       /\ ~ (400 <= status_code resp < 600)
       /\ body resp = inr answer
       /\ py_in "error" answer = Return false.
Proof.
  exact (@health_check_ok_means_api_answered sample_world [] _ _
           eq_refl eq_refl).
Defined.

(** X13: [get_nango_connection_info] never contacts the target API: a run
    adds at most one call to the log, a call of the broker. *)
Theorem connection_info_never_calls_api (w : World) (t : trace) :
  exists l,
    snd (get_nango_connection_info w t) = (t ++ l)%list
    /\ api_calls l = 0%nat
    /\ (length l <= 1)%nat.
Proof.
  rewrite get_nango_connection_info_trace, get_connection_credentials_eq.
  destruct (env_ready w).
  - eexists. split; [reflexivity|]. cbn. split; [reflexivity|lia].
  - exists []. rewrite app_nil_r. cbn. split; [reflexivity|].
    split; [reflexivity|lia].
Qed.

Lemma dict_get_set_same (d : list (string * json)) (k : string) (v : json) :
  dict_get (dict_set d k v) k = Some v.
Proof.
  induction d as [|[k' v'] d IH]; cbn.
  - rewrite String.eqb_refl. reflexivity.
  - destruct (k' =? k)%string eqn:E; cbn; rewrite E; [reflexivity|exact IH].
Qed.

Lemma dict_get_set_other (d : list (string * json)) (k k' : string)
  (v : json) :
  k <> k' -> dict_get (dict_set d k v) k' = dict_get d k'.
Proof.
  intros Hk. induction d as [|[k0 v0] d IH]; cbn.
  - destruct (String.eqb_spec k k'); [contradiction|reflexivity].
  - destruct (String.eqb_spec k0 k) as [->|Hn]; cbn.
    + destruct (String.eqb_spec k k'); [contradiction|reflexivity].
    + destruct (k0 =? k')%string; [reflexivity|exact IH].
Qed.

(** X14: [get_nango_connection_info] tells whether there is an API key, not
    which: two broker answers that differ only in the value of
    [credentials.apiKey], both values empty or both not, give the same
    result. *)
Theorem connection_info_hides_key (w1 w2 : World) (t t1 : trace)
  (fields c : list (string * json)) (k1 k2 : json) :
  get_connection_credentials w1 t = (Return (JObj fields), t1) ->
  dict_get fields "credentials" = Some (JObj c) ->
  dict_get c "apiKey" = Some k1 ->
  truthy k1 = truthy k2 ->
  get_connection_credentials w2 t =
  (Return (JObj (dict_set fields "credentials"
                   (JObj (dict_set c "apiKey" k2)))), t1) ->
  get_nango_connection_info w1 t = get_nango_connection_info w2 t.
Proof.
  intros H1 Hc Hk Ht H2.
  unfold get_nango_connection_info, try_except.
  cbv beta iota delta [bind lift ret].
  rewrite H1, H2.
  cbv beta iota delta [py_get].
  repeat (rewrite ?dict_get_set_same,
            ?(@dict_get_set_other fields "credentials"),
            ?(@dict_get_set_other c "apiKey"), ?Hc, ?Hk, ?Ht
            by discriminate;
          try reflexivity; break_match).
Qed.

Lemma connection_info_hides_key_witness :
  get_nango_connection_info
    (mkWorld sample_environ
       (fun _ _ => Responds (ok_response (credentials_with_key "k-old")))
       (activecampaign sample_world)) [] =
  get_nango_connection_info
    (mkWorld sample_environ
       (fun _ _ => Responds (ok_response (credentials_with_key "k-new")))
       (activecampaign sample_world)) [].
Proof.
  exact (@connection_info_hides_key
           (mkWorld sample_environ
              (fun _ _ => Responds (ok_response (credentials_with_key "k-old")))
              (activecampaign sample_world))
           (mkWorld sample_environ
              (fun _ _ => Responds (ok_response (credentials_with_key "k-new")))
              (activecampaign sample_world))
           [] [BrokerCall (nango_request sample_world)]
           [("connection_id", JStr "conn-1");
            ("credentials", JObj [("type", JStr "API_KEY");
                                  ("apiKey", JStr "k-old")]);
            ("connection_config",
             JObj [("hostname", JStr "acme.api-us1.com")])]
           [("type", JStr "API_KEY"); ("apiKey", JStr "k-old")]
           (JStr "k-old") (JStr "k-new")
           eq_refl eq_refl eq_refl eq_refl eq_refl).
Defined.

(** ** Start-up *)

Lemma print_accepted (console : Console) (s : string) (out : list string)
  (t : trace) :
  accepting console ->
  print console s out t = (Return tt, (out ++ [s])%list, t).
Proof.
  intros Hc. unfold print. rewrite Hc. reflexivity.
Qed.

Lemma run_eq (w : World) (console : Console) (out : list string)
  (t : trace) :
  accepting console ->
  run w console out t =
  match get_connection_credentials w t with
  | (Raise e, t1) =>
      (Return tt, ((out ++ warning_lines w) ++ [failure_line e])%list, t1)
  | (Return credentials, t1) =>
      match get_activecampaign_config w t1 with
      | (Raise e, t2) =>
          (Return tt, ((out ++ warning_lines w) ++ [failure_line e])%list, t2)
      | (Return (api_url, _), t2) =>
          (Return tt,
           ((out ++ warning_lines w) ++ startup_report credentials api_url)%list,
           t2)
      end
  end.
Proof.
  intros Hc.
  assert (Hw : forall (k : unit -> IO unit),
             io_bind (match missing_vars w with
                      | [] => io_ret tt
                      | _ :: _ =>
                          print console
                            ("Warning: Missing Nango environment variables: "
                             ++ join ", " (missing_vars w))
                      end) k out t =
             k tt (out ++ warning_lines w)%list t).
  { intros k. unfold io_bind, warning_lines.
    destruct (missing_vars w);
      [cbn [io_ret]; rewrite app_nil_r|rewrite (print_accepted _ _ _ Hc)];
      reflexivity. }
  unfold run. rewrite Hw. generalize (out ++ warning_lines w)%list as o.
  intros o. unfold io_try_except, io_bind at 1, io_lift at 1.
  destruct (get_connection_credentials w t) as [[c|e] t1];
    [|rewrite (print_accepted _ _ _ Hc); reflexivity].
  unfold io_bind at 1, io_lift at 1.
  destruct (get_activecampaign_config w t1) as [[[u k]|e] t2];
    [|rewrite (print_accepted _ _ _ Hc); reflexivity].
  unfold startup_report, failure_line.
  cbv beta iota delta [io_bind io_lift lift].
  repeat (rewrite ?(print_accepted _ _ _ Hc); cbv beta iota;
          try break_match; cbn [app]; rewrite <- ?app_assoc; cbn [app];
          try reflexivity).
Qed.

Lemma missing_vars_ready (w : World) :
  missing_vars w = [] <-> env_ready w = true.
Proof.
  unfold missing_vars, env_ready, required_nango_vars. cbn [filter forallb].
  destruct (env_truthy (environ w "NANGO_CONNECTION_ID"));
    destruct (env_truthy (environ w "NANGO_INTEGRATION_ID"));
    destruct (env_truthy (environ w "NANGO_BASE_URL"));
    destruct (env_truthy (environ w "NANGO_SECRET_KEY"));
    cbn; split; intros H; try reflexivity; discriminate H.
Qed.




(** X16: with a variable unset or empty, and on a standard output that
    takes every line, start-up prints two lines and sends nothing: the
    warning that names the missing variables, which are those of the four
    that are unset or empty, in the order of the list, and the line that
    reports the failed connection. *)
Theorem startup_with_missing_variables (w : World) (console : Console)
  (out : list string) (t : trace) :
  accepting console ->
  env_ready w = false ->
  run w console out t =
  (Return tt,
   (out ++ [("Warning: Missing Nango environment variables: "
             ++ join ", " (missing_vars w))%string;
            ("✗ Failed to connect to Nango: "
             ++ "Missing required Nango environment variables")%string])%list,
   t)
  /\ missing_vars w <> []
  /\ forall var,
       In var (missing_vars w) <->
       In var required_nango_vars /\ env_truthy (environ w var) = false.
Proof.
  intros Hc He.
  assert (Hm : missing_vars w <> []).
  { intros H. apply missing_vars_ready in H. congruence. }
  split; [|split; [exact Hm|]].
  - rewrite (run_eq w out t Hc), get_connection_credentials_eq, He.
    unfold warning_lines, failure_line.
    destruct (missing_vars w) as [|v vs]; [contradiction|].
    rewrite <- app_assoc. reflexivity.
  - intros var. unfold missing_vars. rewrite filter_In.
    rewrite negb_true_iff. reflexivity.
Qed.

Lemma startup_with_missing_variables_witness :
  run blank_secret_world utf8_console [] [] =
  (Return tt,
   ["Warning: Missing Nango environment variables: NANGO_SECRET_KEY";
    "✗ Failed to connect to Nango: "
    ++ "Missing required Nango environment variables"],
   [])
  /\ missing_vars blank_secret_world <> []
  /\ forall var,
       In var (missing_vars blank_secret_world) <->
       In var required_nango_vars
       /\ env_truthy (environ blank_secret_world var) = false.
Proof.
  exact (@startup_with_missing_variables blank_secret_world utf8_console
           [] [] (fun _ _ => eq_refl) eq_refl).
Defined.

(** X20: the line that reports a failed connection is printed by the
    handler itself, outside any [try].  With a variable unset or empty, on a
    standard output that takes the warning and refuses that line, [run]
    raises what the output raised, after the warning alone and without any
    call: the serving loop is not reached. *)
Theorem startup_failure_report_is_unprotected (w : World)
  (console : Console) (out : list string) (t : trace) (e : exn) :
  env_ready w = false ->
  console out ("Warning: Missing Nango environment variables: "
               ++ join ", " (missing_vars w)) = None ->
  console (out ++ [("Warning: Missing Nango environment variables: "
                    ++ join ", " (missing_vars w))%string])%list
    ("✗ Failed to connect to Nango: "
     ++ "Missing required Nango environment variables") = Some e ->
  run w console out t =
  (Raise e,
   (out ++ [("Warning: Missing Nango environment variables: "
             ++ join ", " (missing_vars w))%string])%list,
   t).
Proof.
  intros He Hw Hf.
  assert (Hm : missing_vars w <> []).
  { intros H. apply missing_vars_ready in H. congruence. }
  unfold run, io_bind at 1.
  destruct (missing_vars w) as [|v vs] eqn:Hv; [contradiction|].
  unfold print at 1. rewrite Hw.
  unfold io_try_except, io_bind at 1, io_lift at 1.
  rewrite get_connection_credentials_eq, He.
  unfold print. cbn [exn_str]. rewrite Hf. reflexivity.
Qed.

Lemma startup_failure_report_is_unprotected_witness :
  run blank_secret_world ascii_console [] [] =
  (Raise (OtherException "'ascii' codec can't encode character"),
   ["Warning: Missing Nango environment variables: NANGO_SECRET_KEY"],
   []).
Proof.
  exact (@startup_failure_report_is_unprotected blank_secret_world
           ascii_console [] []
           (OtherException "'ascii' codec can't encode character")
           eq_refl eq_refl eq_refl).
Defined.

(** Closes a leaf of the case analysis of [run]: the log is [t] followed by
    calls of the broker, and what is raised was raised by the output. *)
Ltac close_run t :=
  first
    [eexists _, _, []; rewrite (app_nil_r t);
     split; [reflexivity|]; cbn;
     split; [reflexivity|]; split; [lia|];
     let e' := fresh "e" in
     let H := fresh "H" in
     intros e' H;
     first [discriminate H|inversion H; subst; eexists _, _; eassumption]
    |eexists _, _, _;
     split; [first [reflexivity|rewrite <- (app_assoc t); reflexivity]|]; cbn;
     split; [reflexivity|]; split; [lia|];
     let e' := fresh "e" in
     let H := fresh "H" in
     intros e' H;
     first [discriminate H|inversion H; subst; eexists _, _; eassumption]].

(** X21: whatever the standard output does, the statements of [run] before
    the serving loop call the broker at most twice and the target API never,
    and an exception leaves them only when the standard output raised it:
    nothing that the broker does can stop start-up. *)
Theorem startup_stops_only_on_output (w : World) (console : Console)
  (out : list string) (t : trace) :
  exists r out' l,
    run w console out t = (r, out', (t ++ l)%list)
    /\ api_calls l = 0%nat
    /\ (length l <= 2)%nat
    /\ forall e, r = Raise e -> exists o s, console o s = Some e.
Proof.
  unfold run.
  match goal with
  | |- context [io_try_except ?m ?h] => set (connect := io_try_except m h)
  end.
  assert (HB : forall o,
             exists r out' l,
               connect o t = (r, out', (t ++ l)%list)
               /\ api_calls l = 0%nat
               /\ (length l <= 2)%nat
               /\ forall e, r = Raise e -> exists o' s, console o' s = Some e).
  { intros o. unfold connect, io_try_except, io_bind at 1, io_lift at 1.
    rewrite get_connection_credentials_eq.
    destruct (env_ready w).
    2:{ unfold print. destruct (console o _) eqn:Hp; close_run t. }
    destruct (decoded (nango w t (nango_request w))) as [c|e0].
    2:{ unfold print. destruct (console o _) eqn:Hp; close_run t. }
    unfold io_bind at 1, io_lift at 1.
    destruct (get_activecampaign_config_cases
                w (t ++ [BrokerCall (nango_request w)])%list)
      as [(e0 & _ & ->)|[(e0 & _ & ->)|(u & k & _ & ->)]].
    - unfold print. destruct (console o _) eqn:Hp; close_run t.
    - unfold print. destruct (console o _) eqn:Hp; close_run t.
    - cbv beta iota delta [io_bind io_lift print lift].
      repeat (break_match; try close_run t). }
  unfold io_bind.
  destruct (missing_vars w) as [|v vs].
  - cbn [io_ret]. apply HB.
  - unfold print at 1. destruct (console out _) eqn:Hp.
    + close_run t.
    + apply HB.
Qed.

(** ** The calls of the broker *)

Lemma no_environment_no_calls (w : World) (c : tool_call) (t : trace) :
  env_ready w = false -> snd (invoke w c t) = t.
Proof.
  intros He.
  assert (Hc : get_connection_credentials w t =
               (Raise (ValueError
                         "Missing required Nango environment variables"), t)).
  { rewrite get_connection_credentials_eq, He. reflexivity. }
  destruct (tool_spec c) as [[[[method endpoint] data] m]|] eqn:Hs.
  - rewrite (invoke_entity w c t Hs), wrapped_result. cbn [snd].
    rewrite make_request_eq, get_activecampaign_config_eq, Hc. reflexivity.
  - destruct c; try discriminate Hs; cbn [invoke].
    + rewrite health_check_trace, Hc. reflexivity.
    + rewrite get_nango_connection_info_trace, Hc. reflexivity.
Qed.

Lemma invoke_broker_calls (w : World) (c : tool_call) (t : trace)
  (r : request) :
  In (BrokerCall r) (snd (invoke w c t)) ->
  In (BrokerCall r) t \/ r = nango_request w.
Proof.
  destruct (tool_spec c) as [[[[method endpoint] data] m]|] eqn:Hs.
  - destruct (entity_calls w c t Hs) as (l & -> & Hl).
    intros H. apply in_app_or in H. destruct H as [H|H]; [left; exact H|].
    right. destruct Hl; cbn in H;
      repeat match goal with
             | H : _ \/ _ |- _ => destruct H as [H|H]
             | H : ApiCall _ = BrokerCall _ |- _ => discriminate H
             | H : False |- _ => destruct H
             end; inversion H; reflexivity.
  - destruct c; try discriminate Hs; cbn [invoke].
    + rewrite health_check_trace, get_connection_credentials_eq.
      destruct (env_ready w); [|tauto].
      destruct (decoded (nango w t (nango_request w))).
      * destruct (make_request_calls w "GET" "/api/3/users" None
                    (t ++ [BrokerCall (nango_request w)])%list)
          as (l & -> & Hl).
        intros H. apply in_app_or in H. destruct H as [H|H].
        { apply in_app_or in H. destruct H as [H|[H|[]]]; [tauto|].
          inversion H. tauto. }
        right. destruct Hl; cbn in H;
          repeat match goal with
                 | H : _ \/ _ |- _ => destruct H as [H|H]
                 | H : ApiCall _ = BrokerCall _ |- _ => discriminate H
                 | H : False |- _ => destruct H
                 end; inversion H; reflexivity.
      * cbn [snd]. intros H. apply in_app_or in H.
        destruct H as [H|[H|[]]]; [tauto|]. inversion H. tauto.
    + rewrite get_nango_connection_info_trace, get_connection_credentials_eq.
      destruct (env_ready w); [|tauto].
      cbn [snd]. intros H. apply in_app_or in H.
      destruct H as [H|[H|[]]]; [tauto|]. inversion H. tauto.
Qed.

(** X17: every call of the broker that a tool adds to the log is the same
    request, and it is sent only when the four variables are set: a GET of
    [{NANGO_BASE_URL}/connection/{NANGO_CONNECTION_ID}] with the query
    parameters [provider_config_key] and [refresh_token=true], the secret as
    bearer token, no body and no timeout. *)
Theorem broker_calls_are_uniform (w : World) (c : tool_call) (t : trace)
  (r : request) :
  In (BrokerCall r) (snd (invoke w c t)) ->
  In (BrokerCall r) t
  \/ (env_ready w = true
      /\ verb r = "GET"
      /\ url r = fmt_env (environ w "NANGO_BASE_URL") ++ "/connection/"
                 ++ fmt_env (environ w "NANGO_CONNECTION_ID")
      /\ params r =
         [("provider_config_key", fmt_env (environ w "NANGO_INTEGRATION_ID"));
          ("refresh_token", "true")]
      /\ headers r =
         [("Authorization",
           JStr ("Bearer " ++ fmt_env (environ w "NANGO_SECRET_KEY")))]
      /\ json_body r = None
      /\ timeout r = None).
Proof.
  intros H. destruct (env_ready w) eqn:He.
  - destruct (invoke_broker_calls w c t r H) as [Hi| ->]; [left; exact Hi|].
    right. repeat split.
  - rewrite (no_environment_no_calls w c t He) in H. left. exact H.
Qed.

Lemma broker_calls_are_uniform_witness :
  In (BrokerCall (nango_request sample_world)) []
  \/ (env_ready sample_world = true
      /\ verb (nango_request sample_world) = "GET"
      /\ url (nango_request sample_world) =
         "https://api.nango.dev/connection/conn-1"
      /\ params (nango_request sample_world) =
         [("provider_config_key", "active-campaign");
          ("refresh_token", "true")]
      /\ headers (nango_request sample_world) =
         [("Authorization", JStr "Bearer s3cr3t")]
      /\ json_body (nango_request sample_world) = None
      /\ timeout (nango_request sample_world) = None).
Proof.
  exact (@broker_calls_are_uniform sample_world (Call_get_deal "7") []
           (nango_request sample_world) (or_introl eq_refl)).
Defined.

(** ** Envelopes *)

(** X18: whatever made the executor return its error dictionary (an HTTP
    error, a timeout, a body that is not JSON), the entity tool turns it into
    the envelope that carries the message in [error] and [None] in every
    other field; the status code is dropped. *)
Theorem error_value_becomes_error_envelope (w : World) (c : tool_call)
  (method endpoint : string) (data : option json) (m : model)
  (t t' : trace) (msg : string) (code : json) :
  tool_spec c = Some (method, endpoint, data, m) ->
  make_request w method endpoint data t =
  (Return (JObj [("error", JStr msg); ("status_code", code)]), t') ->
  invoke w c t = (Return (error_envelope m msg), t').
Proof.
  intros Hc Hm.
  rewrite (invoke_entity w c t Hc), wrapped_result, Hm. cbn [fst snd].
  rewrite (construct_error_value c msg code Hc). reflexivity.
Qed.

Lemma error_value_becomes_error_envelope_witness :
  invoke timing_out_world Call_list_deals [] =
  (Return (JObj [("deal", JNull); ("deals", JNull);
                 ("error", JStr "Read timed out. (read timeout=30)")]),
   [BrokerCall (nango_request sample_world);
    BrokerCall (nango_request sample_world);
    ApiCall (mkRequest "GET" "https://acme.api-us1.com/api/3/deals"
               sample_api_headers [] None (Some 30))]).
Proof.
  exact (@error_value_becomes_error_envelope timing_out_world Call_list_deals
           _ _ _ _ [] _ "Read timed out. (read timeout=30)" JNull
           eq_refl eq_refl).
Defined.

Lemma validate_model_nil (d : list (string * json)) :
  validate (TModel []) (JObj d) = Some (JObj []).
Proof. reflexivity. Qed.

Lemma validate_model_cons (k : string) (ft : ftype)
  (fs : list (string * ftype)) (d : list (string * json)) :
  validate (TModel ((k, ft) :: fs)) (JObj d) =
  match match dict_get d k with
        | None | Some JNull => Some JNull
        | Some x => validate ft x
        end, validate (TModel fs) (JObj d) with
  | Some x, Some (JObj r) => Some (JObj ((k, x) :: r))
  | _, _ => None
  end.
Proof.
  cbn [validate].
  match goal with
  | |- context [option_map JObj (?f fs)] => destruct (f fs) as [r|]
  end;
    cbn [option_map];
    match goal with
    | |- context [match ?a with Some _ => _ | None => _ end] =>
        destruct a; reflexivity
    end.
Qed.

Lemma validate_model_ext (fs : list (string * ftype))
  (d d' : list (string * json)) :
  (forall k, In k (map fst fs) -> dict_get d k = dict_get d' k) ->
  validate (TModel fs) (JObj d) = validate (TModel fs) (JObj d').
Proof.
  induction fs as [|[k ft] fs IH]; intros H.
  - reflexivity.
  - rewrite !validate_model_cons.
    rewrite (H k) by (left; reflexivity).
    rewrite IH by (intros k' Hk; apply H; right; exact Hk).
    reflexivity.
Qed.

(** X19: a response model reads the dictionary it is built from only at
    its declared fields: two dictionaries that agree on those keys give the
    same envelope, or the same validation error, whatever other keys they
    hold. *)
Theorem undeclared_keys_are_ignored (m : model)
  (d d' : list (string * json)) :
  (forall k, In k (map fst (model_fields m)) -> dict_get d k = dict_get d' k) ->
  construct m (JObj d) = construct m (JObj d').
Proof.
  intros H. unfold construct, TClass.
  rewrite (validate_model_ext (model_fields m) d d' H). reflexivity.
Qed.

Lemma undeclared_keys_are_ignored_witness :
  construct DealResponse
    (JObj [("error", JStr "404 Client Error"); ("status_code", JNum 404)]) =
  construct DealResponse (JObj [("error", JStr "404 Client Error")]).
Proof.
  refine (@undeclared_keys_are_ignored DealResponse
            [("error", JStr "404 Client Error"); ("status_code", JNum 404)]
            [("error", JStr "404 Client Error")] _).
  intros k [<-|[<-|[<-|[]]]]; reflexivity.
Defined.

(** ** The second resolution *)

(** X22: the resolution that [get_headers] makes is as unprotected as the
    first.  When the configuration resolves for the base URL and then fails
    for the headers, the executor raises that failure and so does every
    entity tool, after the two broker calls and without any call of the
    target API; [health_check], whose probe came before, returns it as its
    message. *)
Theorem second_resolution_failure_propagates (w : World) (t t1 t2 : trace)
  (api_url : string) (api_key : json) (e : exn) :
  get_activecampaign_config w t = (Return (api_url, api_key), t1) ->
  get_activecampaign_config w t1 = (Raise e, t2) ->
  (forall method endpoint data,
      make_request w method endpoint data t = (Raise e, t2))
  /\ (forall c, is_entity c = true -> invoke w c t = (Raise e, t2))
  /\ (forall t0 credentials,
        get_connection_credentials w t0 = (Return credentials, t) ->
        health_check w t0 = (Return (error_status (JStr (exn_str e))), t2))
  /\ api_calls t2 = api_calls t.
Proof.
  intros H1 H2.
  assert (Hm : forall method endpoint data,
             make_request w method endpoint data t = (Raise e, t2)).
  { intros method endpoint data.
    rewrite make_request_eq, H1, get_headers_eq, H2. reflexivity. }
  split; [exact Hm|]. split; [|split].
  - intros c Hc. unfold is_entity in Hc.
    destruct (tool_spec c) as [[[[method endpoint] data] m]|] eqn:Hs;
      [|discriminate Hc].
    rewrite (invoke_entity w c t Hs), wrapped_result, Hm. reflexivity.
  - intros t0 credentials H0.
    rewrite health_check_eq, H0, Hm. reflexivity.
  - destruct (get_activecampaign_config_cases w t)
      as [(e0 & _ & H)|[(e0 & _ & H)|(u & k & _ & H)]];
      rewrite H in H1; inversion H1; subst.
    destruct (get_activecampaign_config_cases
                w (t ++ [BrokerCall (nango_request w)])%list)
      as [(e0 & _ & H')|[(e0 & _ & H')|(u' & k' & _ & H')]];
      rewrite H' in H2; inversion H2; subst;
      unfold api_calls; rewrite ?filter_app, ?length_app; cbn; lia.
Qed.

Lemma second_resolution_failure_propagates_witness :
  make_request forgetful_world "GET" "/api/3/deals" None [] =
  (Raise (config_failure
            (ValueError "API key not found in Nango credentials")),
   [BrokerCall (nango_request forgetful_world);
    BrokerCall (nango_request forgetful_world)])
  /\ invoke forgetful_world Call_list_deals [] =
     (Raise (config_failure
               (ValueError "API key not found in Nango credentials")),
      [BrokerCall (nango_request forgetful_world);
       BrokerCall (nango_request forgetful_world)]).
Proof.
  destruct (@second_resolution_failure_propagates forgetful_world []
              [BrokerCall (nango_request forgetful_world)]
              [BrokerCall (nango_request forgetful_world);
               BrokerCall (nango_request forgetful_world)]
              "https://acme.api-us1.com" (JStr "k-123")
              (config_failure
                 (ValueError "API key not found in Nango credentials"))
              eq_refl eq_refl) as (H1 & H2 & _).
  split; [apply H1|exact (H2 Call_list_deals eq_refl)].
Defined.
